(** * Journal entry derivation engine of expense-management-poc

    Shallow embedding of the journal-entry derivation in the server
    ([extractAmountFromOCR], [extractDateFromOCR],
    [createFallbackJournalEntry] and [generateJournalEntry]).

    Modelling conventions:
    - text is a Rocq [string]: a sequence of 8-bit code units, i.e. the
      JavaScript strings whose code units are all below 0x100 (Latin-1);
    - a JavaScript number is [jsnum]: [NaN] or an exact rational.  Decimal
      literals are read exactly and the division by 1.19 is exact; the
      IEEE-754 rounding of these steps is not modelled;
    - an OCR result, and any value produced by [JSON.parse], is a [json]
      value; an object is the list of its properties in insertion order. *)

From Stdlib Require Import String Ascii List ZArith QArith Qabs Qround Bool Lia Lqa.
Import ListNotations.

Open Scope string_scope.
Open Scope nat_scope.

(** ** Characters *)

Definition code (c : ascii) : nat := nat_of_ascii c.

Definition is_digit (c : ascii) : bool :=
  (48 <=? code c) && (code c <=? 57).

Definition is_upper (c : ascii) : bool :=
  (65 <=? code c) && (code c <=? 90).

(** [String.prototype.toLowerCase] on Latin-1 code units: A-Z, 0xC0-0xD6
    and 0xD8-0xDE are the upper-case letters, each lowered by 0x20. *)
Definition lower_char (c : ascii) : ascii :=
  let n := code c in
  if ((65 <=? n) && (n <=? 90)) || ((192 <=? n) && (n <=? 222) && negb (n =? 215))
  then ascii_of_nat (n + 32) else c.

Fixpoint toLowerCase (s : string) : string :=
  match s with
  | EmptyString => EmptyString
  | String c s' => String (lower_char c) (toLowerCase s')
  end.

(** The JavaScript white space and line terminators of the Latin-1 range
    (the class [\s] of regular expressions, and what [trim] removes). *)
Definition js_space (c : ascii) : bool :=
  let n := code c in
  ((9 <=? n) && (n <=? 13)) || (n =? 32) || (n =? 160).

Fixpoint starts_with (pat s : string) : bool :=
  match pat, s with
  | EmptyString, _ => true
  | String a pat', String b s' => Ascii.eqb a b && starts_with pat' s'
  | String _ _, EmptyString => false
  end.

(** [s.includes(pat)] *)
Fixpoint includes (s pat : string) : bool :=
  starts_with pat s ||
  match s with
  | EmptyString => false
  | String _ s' => includes s' pat
  end.

(** ** JavaScript numbers *)

(** A number is NaN or a rational.  Arithmetic on rationals is exact:
    the rounding of IEEE doubles after each operation is not modelled, so
    only statements that do not rest on that rounding carry over to the
    program. *)
Inductive jsnum : Type :=
| NaN
| Num (q : Q).

(** [isNaN] *)
Definition isNaN (x : jsnum) : bool :=
  match x with NaN => true | Num _ => false end.

Definition js_div (x y : jsnum) : jsnum :=
  match x, y with
  | Num a, Num b => if Qeq_bool b 0 then NaN else Num (a / b)%Q
  | _, _ => NaN
  end.

Definition js_sub (x y : jsnum) : jsnum :=
  match x, y with Num a, Num b => Num (a - b)%Q | _, _ => NaN end.

Definition js_add (x y : jsnum) : jsnum :=
  match x, y with Num a, Num b => Num (a + b)%Q | _, _ => NaN end.

(** [x > y]: false as soon as one side is NaN. *)
Definition js_gt (x y : jsnum) : bool :=
  match x, y with Num a, Num b => negb (Qle_bool a b) | _, _ => false end.

(** [x === y] on numbers: NaN is equal to nothing. *)
Definition js_eq (x y : jsnum) : bool :=
  match x, y with Num a, Num b => Qeq_bool a b | _, _ => false end.

(** [Math.max(...xs)] for a non-empty argument list. *)
Definition js_max2 (x y : jsnum) : jsnum :=
  match x, y with
  | Num a, Num b => if Qle_bool a b then Num b else Num a
  | _, _ => NaN
  end.

Definition Math_max (x : jsnum) (xs : list jsnum) : jsnum :=
  fold_left js_max2 xs x.

(** ** JSON values *)

(** [JNum m e] is the number [m * 10^e]. *)
#[local] Set Warnings "-register-all".
Inductive json : Type :=
| JNull
| JBool (b : bool)
| JNum (m : Z) (e : Z)
| JStr (s : string)
| JArr (xs : list json)
| JObj (kvs : list (string * json)).

Definition num_value (m e : Z) : Q :=
  if (0 <=? e)%Z then inject_Z (m * 10 ^ e) else Qmake m (Z.to_pos (10 ^ (- e))).

(** Decimal digits of a natural number, most significant first. *)
Fixpoint digits_aux (fuel : nat) (n : Z) (acc : string) : string :=
  match fuel with
  | O => acc
  | S fuel' =>
      let acc' := String (ascii_of_nat (48 + Z.to_nat (n mod 10))) acc in
      if (n <? 10)%Z then acc' else digits_aux fuel' (n / 10) acc'
  end.

Definition digits (n : Z) : string :=
  digits_aux (S (Z.to_nat (Z.log2 n))) n EmptyString.

(** Removes the trailing decimal zeros of a non-zero [m], counting them. *)
Fixpoint strip_zeros (fuel : nat) (m e : Z) : Z * Z :=
  match fuel with
  | O => (m, e)
  | S fuel' =>
      if (m mod 10 =? 0)%Z then strip_zeros fuel' (m / 10) (e + 1) else (m, e)
  end.

Fixpoint zeros (n : nat) : string :=
  match n with O => EmptyString | S n' => String "0" (zeros n') end.

Definition exp_part (n : Z) : string :=
  "e" ++ (if (n - 1 <? 0)%Z then "-" else "+") ++ digits (Z.abs (n - 1)).

(** [Number.prototype.toString] on a positive value [s * 10^(n-k)] where
    [s] has the [k] digits [ds] and no trailing zero (ECMA-262,
    Number::toString, steps for radix 10). *)
Definition positive_to_string (ds : string) (n : Z) : string :=
  let k := Z.of_nat (String.length ds) in
  if (k <=? n)%Z && (n <=? 21)%Z then ds ++ zeros (Z.to_nat (n - k))
  else if (0 <? n)%Z && (n <=? 21)%Z then
    substring 0 (Z.to_nat n) ds ++ "." ++ substring (Z.to_nat n) (String.length ds) ds
  else if (-6 <? n)%Z && (n <=? 0)%Z then
    "0." ++ zeros (Z.to_nat (- n)) ++ ds
  else if (k =? 1)%Z then ds ++ exp_part n
  else substring 0 1 ds ++ "." ++ substring 1 (String.length ds) ds ++ exp_part n.

Definition number_to_string (m e : Z) : string :=
  if (m =? 0)%Z then "0"
  else
    let '(m', e') := strip_zeros (S (Z.to_nat (Z.log2 (Z.abs m)))) (Z.abs m) e in
    let ds := digits m' in
    let body := positive_to_string ds (Z.of_nat (String.length ds) + e') in
    if (m <? 0)%Z then "-" ++ body else body.

(** The double quote, code unit 34. *)
Definition dq : ascii := ascii_of_nat 34.

Definition hex_digit (n : nat) : ascii :=
  if n <? 10 then ascii_of_nat (48 + n) else ascii_of_nat (87 + n).

(** QuoteJSONString, one code unit. *)
Definition quote_char (c : ascii) : string :=
  let n := code c in
  if n =? 34 then String "\" (String dq EmptyString) else
  if n =? 92 then "\\" else
  if n =? 8 then "\b" else
  if n =? 12 then "\f" else
  if n =? 10 then "\n" else
  if n =? 13 then "\r" else
  if n =? 9 then "\t" else
  if n <? 32 then String "\" (String "u" (String "0" (String "0"
                    (String (hex_digit (n / 16)) (String (hex_digit (n mod 16)) EmptyString)))))
  else String c EmptyString.

Fixpoint quote_body (s : string) : string :=
  match s with
  | EmptyString => EmptyString
  | String c s' => quote_char c ++ quote_body s'
  end.

Definition quote (s : string) : string := String dq (quote_body s ++ String dq EmptyString).

Fixpoint join (sep : string) (xs : list string) : string :=
  match xs with
  | [] => EmptyString
  | [x] => x
  | x :: xs' => x ++ sep ++ join sep xs'
  end.

(** The value of a string of decimal digits, [None] if another code unit
    occurs. *)
Fixpoint index_digits (s : string) (acc : Z) : option Z :=
  match s with
  | EmptyString => Some acc
  | String c s' =>
      if is_digit c then index_digits s' (acc * 10 + Z.of_nat (code c - 48))%Z else None
  end.

(** The value of a property key that is an array index: the decimal form,
    without leading zero, of an integer below 2^32 - 1. *)
Definition array_index (k : string) : option Z :=
  match k with
  | EmptyString => None
  | String c rest =>
      if Ascii.eqb c "0" && negb (String.eqb rest EmptyString) then None
      else match index_digits k 0 with
           | Some n => if (n <? 4294967295)%Z then Some n else None
           | None => None
           end
  end.

Definition is_index_key (k : string) : bool :=
  match array_index k with Some _ => true | None => false end.

Fixpoint insert_index {A : Type} (n : Z) (x : string * A) (l : list (Z * (string * A)))
  : list (Z * (string * A)) :=
  match l with
  | [] => [(n, x)]
  | (m, y) :: l' => if (n <? m)%Z then (n, x) :: l else (m, y) :: insert_index n x l'
  end.

Fixpoint index_keys {A : Type} (l : list (string * A)) : list (Z * (string * A)) :=
  match l with
  | [] => []
  | x :: l' =>
      match array_index (fst x) with
      | Some n => insert_index n x (index_keys l')
      | None => index_keys l'
      end
  end.

(** OrdinaryOwnPropertyKeys: the array-index keys in ascending order, then
    the other keys in the order they were created. *)
Definition own_keys_order {A : Type} (l : list (string * A)) : list (string * A) :=
  map snd (index_keys l) ++ filter (fun x => negb (is_index_key (fst x))) l.

(** [JSON.stringify(v)] without indentation.  An object is written in the
    order of its own keys. *)
Fixpoint stringify (v : json) : string :=
  match v with
  | JNull => "null"
  | JBool true => "true"
  | JBool false => "false"
  | JNum m e => number_to_string m e
  | JStr s => quote s
  | JArr xs => "[" ++ join "," (map stringify xs) ++ "]"
  | JObj kvs =>
      "{" ++ join "," (map snd (own_keys_order
                 (map (fun kv => (fst kv, quote (fst kv) ++ ":" ++ stringify (snd kv))) kvs)))
      ++ "}"
  end.

(** ** Property access and truthiness *)

(** [v.k] for a JSON value: [None] when it raises (a property of [null]),
    [Some None] when the property is [undefined]. *)
Definition get (v : json) (k : string) : option (option json) :=
  match v with
  | JNull => None
  | JObj kvs =>
      Some (match find (fun kv => String.eqb (fst kv) k) kvs with
            | Some kv => Some (snd kv)
            | None => None
            end)
  | _ => Some None
  end.

Definition truthy (v : option json) : bool :=
  match v with
  | None | Some JNull => false
  | Some (JBool b) => b
  | Some (JNum m _) => negb (m =? 0)%Z
  | Some (JStr s) => negb (String.eqb s EmptyString)
  | Some (JArr _) | Some (JObj _) => true
  end.

(** ** Text helpers *)

Fixpoint filter_chars (p : ascii -> bool) (s : string) : string :=
  match s with
  | EmptyString => EmptyString
  | String c s' => if p c then String c (filter_chars p s') else filter_chars p s'
  end.

Definition is_dot (c : ascii) : bool := Ascii.eqb c ".".

(** Longest prefix of [s] whose code units satisfy [p], and the rest. *)
Fixpoint span (p : ascii -> bool) (s : string) : string * string :=
  match s with
  | EmptyString => (EmptyString, EmptyString)
  | String c s' =>
      if p c then let '(a, b) := span p s' in (String c a, b) else (EmptyString, s)
  end.

Fixpoint digits_value (s : string) (acc : Z) : Z :=
  match s with
  | EmptyString => acc
  | String c s' => digits_value s' (acc * 10 + Z.of_nat (code c - 48))%Z
  end.

(** [parseFloat(s)] on a string made of digits and dots, the only strings
    the source passes to it: the longest prefix of the form
    [digits], [digits.digits?] or [.digits] is read, NaN when there is none. *)
Definition parseFloat_dec (s : string) : jsnum :=
  let '(ip, rest) := span is_digit s in
  let fp := match rest with
            | String c rest' => if is_dot c then fst (span is_digit rest') else EmptyString
            | EmptyString => EmptyString
            end in
  if String.eqb ip EmptyString && String.eqb fp EmptyString then NaN
  else Num (num_value (digits_value (ip ++ fp) 0) (- Z.of_nat (String.length fp))).

(** ** extractAmountFromOCR *)

Definition is_digit_or_comma (c : ascii) : bool := is_digit c || Ascii.eqb c ",".

(** One match of [/[\d,]+\.?\d{0,2}/] at the head of [s]: the match and the
    rest of the text.  Nothing after [[\d,]+] can fail, so the greedy
    match needs no backtracking. *)
Definition amount_match_at (s : string) : option (string * string) :=
  let '(run, rest) := span is_digit_or_comma s in
  if String.eqb run EmptyString then None
  else
    match rest with
    | String c rest' =>
        if is_dot c then
          match rest' with
          | String d1 (String d2 r) =>
              if is_digit d1 then
                if is_digit d2 then Some (run ++ String c (String d1 (String d2 EmptyString)), r)
                else Some (run ++ String c (String d1 EmptyString), String d2 r)
              else Some (run ++ String c EmptyString, rest')
          | String d1 EmptyString =>
              if is_digit d1 then Some (run ++ String c (String d1 EmptyString), EmptyString)
              else Some (run ++ String c EmptyString, rest')
          | EmptyString => Some (run ++ String c EmptyString, EmptyString)
          end
        else Some (run, rest)
    | EmptyString => Some (run, rest)
    end.

(** [s.match(/[\d,]+\.?\d{0,2}/g)] as the list of its matches ([null] is
    the empty list). *)
Fixpoint amount_matches_aux (fuel : nat) (s : string) : list string :=
  match fuel with
  | O => []
  | S fuel' =>
      match amount_match_at s with
      | Some (m, rest) => m :: amount_matches_aux fuel' rest
      | None =>
          match s with
          | EmptyString => []
          | String _ s' => amount_matches_aux fuel' s'
          end
      end
  end.

Definition amount_matches (s : string) : list string :=
  amount_matches_aux (S (String.length s)) s.

Definition is_not_comma (c : ascii) : bool := negb (Ascii.eqb c ",").
Definition is_digit_or_dot (c : ascii) : bool := is_digit c || is_dot c.

(** [if (v && typeof v === 'number') return v;] *)
Definition number_field (v : option json) : option jsnum :=
  if truthy v then
    match v with Some (JNum m e) => Some (Num (num_value m e)) | _ => None end
  else None.

(** [if (v && typeof v === 'string') { const parsed =
    parseFloat(v.replace(/[^\d.]/g, '')); if (!isNaN(parsed)) return parsed; }] *)
Definition string_field (v : option json) : option jsnum :=
  if truthy v then
    match v with
    | Some (JStr s) =>
        let parsed := parseFloat_dec (filter_chars is_digit_or_dot s) in
        if isNaN parsed then None else Some parsed
    | _ => None
    end
  else None.

(** The text search over [JSON.stringify(ocrData).toLowerCase()]. *)
Definition text_search (ocrData : json) : option jsnum :=
  let dataStr := toLowerCase (stringify ocrData) in
  match amount_matches dataStr with
  | [] => None
  | a :: more =>
      let num a := parseFloat_dec (filter_chars is_not_comma a) in
      Some (Math_max (num a) (map num more))
  end.

Definition default_amount : jsnum := Num 10.

Definition extractAmountFromOCR (ocrData : json) : jsnum :=
  match get ocrData "total" with
  | None => default_amount            (* TypeError on [null], caught *)
  | Some total =>
      let totalAmount := match get ocrData "totalAmount" with Some v => v | None => None end in
      match number_field total with Some x => x | None =>
      match number_field totalAmount with Some x => x | None =>
      match string_field total with Some x => x | None =>
      match text_search ocrData with Some x => x | None =>
      default_amount
      end end end end
  end.

(** ** Regular-expression scans of [extractDateFromOCR] and of the
    merchant search *)

(** [s] without its first [n] code units when they are all digits. *)
Fixpoint drop_digits (n : nat) (s : string) : option string :=
  match n, s with
  | O, _ => Some s
  | S n', String c s' => if is_digit c then drop_digits n' s' else None
  | S _, EmptyString => None
  end.

Definition is_date_sep (c : ascii) : bool :=
  Ascii.eqb c "/" || Ascii.eqb c "-" || Ascii.eqb c ".".

Definition drop_sep (s : string) : option string :=
  match s with
  | String c s' => if is_date_sep c then Some s' else None
  | EmptyString => None
  end.

(** The quantifier counts of [/\d{1,2}[\/\-\.]\d{1,2}[\/\-\.]\d{2,4}/] in
    the order a backtracking matcher tries them (greedy first). *)
Definition date_counts : list (nat * nat * nat) :=
  flat_map (fun a => flat_map (fun b => map (fun c => (a, b, c)) [4; 3; 2]) [2; 1]) [2; 1].

Definition date_match_at (s : string) : option string :=
  let try_counts '(a, b, c) :=
    match drop_digits a s with
    | Some s1 => match drop_sep s1 with
      | Some s2 => match drop_digits b s2 with
        | Some s3 => match drop_sep s3 with
          | Some s4 => match drop_digits c s4 with
            | Some _ => Some (substring 0 (a + 1 + b + 1 + c) s)
            | None => None end
          | None => None end
        | None => None end
      | None => None end
    | None => None
    end in
  let fix first (cs : list (nat * nat * nat)) :=
    match cs with
    | [] => None
    | abc :: cs' => match try_counts abc with Some m => Some m | None => first cs' end
    end in
  first date_counts.

(** The first match of a pattern, tried at every position from the left. *)
Fixpoint first_match (at_head : string -> option string) (s : string) : option string :=
  match at_head s with
  | Some m => Some m
  | None => match s with EmptyString => None | String _ s' => first_match at_head s' end
  end.

(** The first match of a pattern anchored by [^] in multiline mode: tried
    at the start and after each line terminator. *)
Fixpoint first_match_line (at_head : string -> option string) (at_start : bool) (s : string)
  : option string :=
  match (if at_start then at_head s else None) with
  | Some m => Some m
  | None =>
      match s with
      | EmptyString => None
      | String c s' => first_match_line at_head ((code c =? 10) || (code c =? 13)) s'
      end
  end.

(** [/([A-Z][A-Z\s&]+[A-Z])/] at the head of [s]: [[A-Z\s&]+] backtracks
    from its longest run to the last upper-case letter at run index >= 1. *)
Definition upper_run_class (c : ascii) : bool := is_upper c || js_space c || Ascii.eqb c "&".

Fixpoint last_upper (r : string) (i : nat) (best : option nat) : option nat :=
  match r with
  | EmptyString => best
  | String c r' => last_upper r' (S i) (if (1 <=? i) && is_upper c then Some i else best)
  end.

Definition upper_run_at (s : string) : option string :=
  match s with
  | String c rest =>
      if is_upper c then
        let run := fst (span upper_run_class rest) in
        match last_upper run 0 None with
        | Some t => Some (String c (substring 0 (S t) run))
        | None => None
        end
      else None
  | EmptyString => None
  end.

(** The second merchant pattern (a double quote, at least one code unit
    other than a double quote, a double quote) at the head of [s]. *)
Definition quoted_at (s : string) : option string :=
  match s with
  | String c rest =>
      if Ascii.eqb c dq then
        let '(inner, after) := span (fun x => negb (Ascii.eqb x dq)) rest in
        match inner, after with
        | String _ _, String _ _ => Some (String dq (inner ++ String dq EmptyString))
        | _, _ => None
        end
      else None
  | EmptyString => None
  end.

Definition is_lower (c : ascii) : bool := (97 <=? code c) && (code c <=? 122).

(** [/^([A-Z][A-Za-z\s]+)/m] at the head of [s]. *)
Definition line_start_at (s : string) : option string :=
  match s with
  | String c rest =>
      if is_upper c then
        match fst (span (fun x => is_upper x || is_lower x || js_space x) rest) with
        | EmptyString => None
        | run => Some (String c run)
        end
      else None
  | EmptyString => None
  end.

Fixpoint ltrim (s : string) : string :=
  match s with
  | String c s' => if js_space c then ltrim s' else s
  | EmptyString => EmptyString
  end.

Fixpoint string_rev (s : string) (acc : string) : string :=
  match s with
  | EmptyString => acc
  | String c s' => string_rev s' (String c acc)
  end.

(** [s.trim()] *)
Definition trim (s : string) : string :=
  string_rev (ltrim (string_rev (ltrim s) EmptyString)) EmptyString.

(** The merchant clean-up: every single and double quote removed, then
    [trim()]. *)
Definition clean_merchant (m : string) : string :=
  trim (filter_chars (fun c => negb (Ascii.eqb c dq || Ascii.eqb c "'")) m).

(** The loop over [merchantPatterns] on [JSON.stringify(ocrData)]. *)
Definition pattern_merchant (s : string) : string :=
  let ok m := (3 <? String.length m) && (String.length m <? 50) in
  let fix go (ms : list (option string)) :=
    match ms with
    | [] => "Unknown Merchant"
    | Some m :: ms' => if ok m then clean_merchant m else go ms'
    | None :: ms' => go ms'
    end in
  go [first_match upper_run_at s; first_match quoted_at s;
      first_match_line line_start_at true s].

(** ** Category classification *)

(** [merchantLower.includes(k1) || ... || ocrText.includes(k1) || ...] *)
Definition mentions (merchantLower ocrText : string) (keywords : list string) : bool :=
  existsb (includes merchantLower) keywords || existsb (includes ocrText) keywords.

(** The if/else-if chain choosing [expenseAccount] and [description]. *)
Definition classify (merchantLower ocrText : string) : string * string :=
  if mentions merchantLower ocrText ["restaurant"; "cafe"; "food"] then
    ("Meals & Entertainment", "Restaurant/Food expense")
  else if mentions merchantLower ocrText ["gas"; "fuel"; "petrol"] then
    ("Fuel & Transportation", "Fuel expense")
  else if mentions merchantLower ocrText ["office"; "supplies"; "stationery"] then
    ("Office Supplies", "Office supplies")
  else if mentions merchantLower ocrText ["hotel"; "accommodation"] then
    ("Travel & Accommodation", "Travel expense")
  else if mentions merchantLower ocrText ["software"; "subscription"; "tech"] then
    ("IT & Software", "Software/IT expense")
  else ("General Expenses", "Expense Transaction (OCR processed)").

(** The same rules as a table, in declaration order. *)
Definition category_rules : list (list string * (string * string)) :=
  [ (["restaurant"; "cafe"; "food"], ("Meals & Entertainment", "Restaurant/Food expense"));
    (["gas"; "fuel"; "petrol"], ("Fuel & Transportation", "Fuel expense"));
    (["office"; "supplies"; "stationery"], ("Office Supplies", "Office supplies"));
    (["hotel"; "accommodation"], ("Travel & Accommodation", "Travel expense"));
    (["software"; "subscription"; "tech"], ("IT & Software", "Software/IT expense")) ].

Definition default_category : string * string :=
  ("General Expenses", "Expense Transaction (OCR processed)").

(** ** VAT split and rounding *)

Definition standardRate : Q := 19 # 100.

(** [ocrText.includes('vat') || ocrText.includes('tax') || ocrText.includes('19%')] *)
Definition hasVAT (ocrText : string) : bool :=
  includes ocrText "vat" || includes ocrText "tax" || includes ocrText "19%".

Record vat_split := mkSplit { split_net : jsnum; split_vat : jsnum; split_rate : jsnum }.

(** Lines 292-306: [netAmount], [vatAmount] and [vatRate]. *)
Definition vat_amounts (amount : jsnum) (ocrText : string) : vat_split :=
  if hasVAT ocrText then
    let netAmount := js_div amount (Num (119 # 100)) in
    mkSplit netAmount (js_sub amount netAmount) (Num standardRate)
  else mkSplit amount (Num 0) (Num 0).

(** Cents of a non-negative rational: [toFixed(2)] picks
    the nearest multiple of 0.01, the larger one on a tie. *)
Definition cents (q : Q) : Z := Qfloor (q * 100 + (1 # 2)).

(** [parseFloat(x.toFixed(2))]: [toFixed] rounds the magnitude and keeps
    the sign; from 1e21 on it prints the number itself.  The rational is
    rounded; JavaScript rounds the double that stands for it, which can
    lie on the other side of a tie (1.005 gives 1.00 there, 1.01 here). *)
Definition fixed2 (x : jsnum) : jsnum :=
  match x with
  | NaN => NaN
  | Num q =>
      if Qle_bool (inject_Z (10 ^ 21)) (Qabs q) then Num q
      else if Qle_bool 0 q then Num (Qmake (cents q) 100)
      else Num (Qmake (- cents (- q)) 100)
  end.

(** ** The journal entry *)

Record LedgerLine := mkLine {
  type : string;
  account : string;
  amount : jsnum;
  line_description : string }.

Record LineItem := mkItem {
  item_description : string;
  quantity : jsnum;
  unitPrice : jsnum;
  item_total : jsnum;
  item_vatRate : jsnum;
  category : string }.

Record VatBreakdown := mkVat {
  netAmount : jsnum;
  vatAmount : jsnum;
  grossAmount : jsnum;
  vatRate : jsnum }.

Record JournalEntry := mkEntry {
  date : string;
  description : string;
  reference : string;
  merchant : string;
  entries : list LedgerLine;
  lineItems : list LineItem;
  vatBreakdown : VatBreakdown;
  totalDebit : jsnum;
  totalCredit : jsnum }.

(** Completion of a JavaScript computation: a value, or a thrown error. *)
Inductive outcome (A : Type) : Type :=
| Ret (a : A)
| Throw (err : string).
Arguments Ret {A} a.
Arguments Throw {A} err.

(** The merchant of lines 310-334: [Throw] when [toLowerCase] is called on
    a structured merchant field that is not a string, or when [ocrData] is
    [null]. *)
Definition find_merchant (ocrData : json) : outcome string :=
  match get ocrData "establishment", get ocrData "merchantName", get ocrData "vendor" with
  | Some est, Some mn, Some ven =>
      if truthy est || truthy mn || truthy ven then
        let m := if truthy est then est else if truthy mn then mn else ven in
        match m with
        | Some (JStr s) => Ret s
        | _ => Throw "TypeError"
        end
      else Ret (pattern_merchant (stringify ocrData))
  | _, _, _ => Throw "TypeError"
  end.

(** [createFallbackJournalEntry(ocrData, amount, date)] *)
Definition createFallbackJournalEntry (ocrData : json) (amount : jsnum) (date : string)
  : outcome JournalEntry :=
  let ocrText := toLowerCase (stringify ocrData) in
  let hv := hasVAT ocrText in
  let sp := vat_amounts amount ocrText in
  let netAmount := split_net sp in
  let vatAmount := split_vat sp in
  let vatRate := split_rate sp in
  match find_merchant ocrData with
  | Throw e => Throw e
  | Ret merchant =>
      let '(expenseAccount, description) := classify (toLowerCase merchant) ocrText in
      let entries :=
        ([mkLine "debit" expenseAccount (fixed2 netAmount) description]
        ++ (if hv && js_gt vatAmount (Num 0)
            (* [(vatRate * 100).toFixed(0)] is 19 on this branch *)
            then [mkLine "debit" "VAT Input Tax" (fixed2 vatAmount) "VAT 19%"]
            else [])
        ++ [mkLine "credit" "Cash/Bank Account" (fixed2 amount) "Payment"])%list in
      Ret (mkEntry date (merchant ++ " - " ++ description) "AUTO-GENERATED" merchant entries
             [mkItem description (Num 1) (fixed2 netAmount) (fixed2 netAmount) vatRate expenseAccount]
             (mkVat (fixed2 netAmount) (fixed2 vatAmount) (fixed2 amount) vatRate)
             (fixed2 amount) (fixed2 amount))
  end.

(** ** JSON.parse *)

Definition is_json_ws (c : ascii) : bool :=
  let n := code c in (n =? 9) || (n =? 10) || (n =? 13) || (n =? 32).

Fixpoint skip_ws (s : string) : string :=
  match s with
  | String c s' => if is_json_ws c then skip_ws s' else s
  | EmptyString => EmptyString
  end.

Definition hex_value (c : ascii) : option nat :=
  let n := code c in
  if (48 <=? n) && (n <=? 57) then Some (n - 48)
  else if (97 <=? n) && (n <=? 102) then Some (n - 87)
  else if (65 <=? n) && (n <=? 70) then Some (n - 55)
  else None.

(** The escape [\c] of a JSON string, [c] not [u]. *)
Definition simple_escape (c : ascii) : option ascii :=
  let n := code c in
  if (n =? 34) || (n =? 92) || (n =? 47) then Some c
  else if n =? 98 then Some (ascii_of_nat 8)
  else if n =? 102 then Some (ascii_of_nat 12)
  else if n =? 110 then Some (ascii_of_nat 10)
  else if n =? 114 then Some (ascii_of_nat 13)
  else if n =? 116 then Some (ascii_of_nat 9)
  else None.

(** The body of a JSON string after its opening quote: the decoded text
    and what follows the closing quote.  A [\u] escape naming a code unit
    above 0xFF lies outside the modelled character set and is refused. *)
Fixpoint parse_str_body (s : string) : option (string * string) :=
  match s with
  | EmptyString => None
  | String c s' =>
      if Ascii.eqb c dq then Some (EmptyString, s')
      else if Ascii.eqb c "\" then
        match s' with
        | String e s'' =>
            if Ascii.eqb e "u" then
              match s'' with
              | String h1 (String h2 (String h3 (String h4 rest))) =>
                  match hex_value h1, hex_value h2, hex_value h3, hex_value h4 with
                  | Some a, Some b, Some c3, Some d =>
                      let n := ((a * 16 + b) * 16 + c3) * 16 + d in
                      if n <? 256 then
                        match parse_str_body rest with
                        | Some (t, r) => Some (String (ascii_of_nat n) t, r)
                        | None => None
                        end
                      else None
                  | _, _, _, _ => None
                  end
              | _ => None
              end
            else
              match simple_escape e with
              | Some x =>
                  match parse_str_body s'' with
                  | Some (t, r) => Some (String x t, r)
                  | None => None
                  end
              | None => None
              end
        | EmptyString => None
        end
      else if code c <? 32 then None
      else
        match parse_str_body s' with
        | Some (t, r) => Some (String c t, r)
        | None => None
        end
  end.

(** A JSON number: an optional minus, [0] or a non-zero digit and more
    digits, an optional fraction of one digit or more, an optional
    exponent [e] or [E] with an optional sign and one digit or more. *)
Definition parse_number (s : string) : option (json * string) :=
  let '(neg, s1) := match s with
                    | String c s' => if Ascii.eqb c "-" then (true, s') else (false, s)
                    | EmptyString => (false, s)
                    end in
  let int_part :=
    match s1 with
    | String c r =>
        if Ascii.eqb c "0" then Some (String c EmptyString, r)
        else if is_digit c then Some (span is_digit s1)
        else None
    | EmptyString => None
    end in
  match int_part with
  | None => None
  | Some (ip, r1) =>
      let frac :=
        match r1 with
        | String c r => if is_dot c then
                          let '(fd, r') := span is_digit r in
                          if String.eqb fd EmptyString then None else Some (fd, r')
                        else Some (EmptyString, r1)
        | EmptyString => Some (EmptyString, r1)
        end in
      match frac with
      | None => None
      | Some (fp, r2) =>
          let expo :=
            match r2 with
            | String c r =>
                if Ascii.eqb c "e" || Ascii.eqb c "E" then
                  let '(sgn, r') := match r with
                                    | String d r'' => if Ascii.eqb d "-" then (-1, r'')%Z
                                                      else if Ascii.eqb d "+" then (1, r'')%Z
                                                      else (1, r)%Z
                                    | EmptyString => (1%Z, r)
                                    end in
                  let '(ed, r3) := span is_digit r' in
                  if String.eqb ed EmptyString then None
                  else Some (sgn * digits_value ed 0, r3)%Z
                else Some (0%Z, r2)
            | EmptyString => Some (0%Z, r2)
            end in
          match expo with
          | None => None
          | Some (x, r3) =>
              let m := digits_value (ip ++ fp) 0 in
              Some (JNum (if neg then - m else m)%Z (x - Z.of_nat (String.length fp))%Z, r3)
          end
      end
  end.

(** CreateDataProperty on a parsed object: a repeated key keeps its
    position and takes the new value. *)
Fixpoint obj_set (kvs : list (string * json)) (k : string) (v : json) : list (string * json) :=
  match kvs with
  | [] => [(k, v)]
  | (k', v') :: kvs' => if String.eqb k k' then (k, v) :: kvs' else (k', v') :: obj_set kvs' k v
  end.

Fixpoint pvalue (fuel : nat) (s : string) {struct fuel} : option (json * string) :=
  match fuel with
  | O => None
  | S f =>
      match s with
      | EmptyString => None
      | String c s' =>
          if Ascii.eqb c "{" then
            match skip_ws s' with
            | String c2 r => if Ascii.eqb c2 "}" then Some (JObj [], r)
                             else pmembers f (skip_ws s') []
            | EmptyString => None
            end
          else if Ascii.eqb c "[" then
            match skip_ws s' with
            | String c2 r => if Ascii.eqb c2 "]" then Some (JArr [], r)
                             else pelems f (skip_ws s') []
            | EmptyString => None
            end
          else if Ascii.eqb c dq then
            match parse_str_body s' with Some (t, r) => Some (JStr t, r) | None => None end
          else if starts_with "true" s then Some (JBool true, substring 4 (String.length s) s)
          else if starts_with "false" s then Some (JBool false, substring 5 (String.length s) s)
          else if starts_with "null" s then Some (JNull, substring 4 (String.length s) s)
          else parse_number s
      end
  end
with pelems (fuel : nat) (s : string) (acc : list json) {struct fuel} : option (json * string) :=
  match fuel with
  | O => None
  | S f =>
      match pvalue f s with
      | None => None
      | Some (v, r) =>
          match skip_ws r with
          | String c r' =>
              if Ascii.eqb c "," then pelems f (skip_ws r') (acc ++ [v])
              else if Ascii.eqb c "]" then Some (JArr (acc ++ [v]), r')
              else None
          | EmptyString => None
          end
      end
  end
with pmembers (fuel : nat) (s : string) (acc : list (string * json)) {struct fuel}
  : option (json * string) :=
  match fuel with
  | O => None
  | S f =>
      match s with
      | String c s' =>
          if Ascii.eqb c dq then
            match parse_str_body s' with
            | Some (k, r) =>
                match skip_ws r with
                | String c2 r2 =>
                    if Ascii.eqb c2 ":" then
                      match pvalue f (skip_ws r2) with
                      | Some (v, r3) =>
                          match skip_ws r3 with
                          | String c3 r4 =>
                              if Ascii.eqb c3 "," then pmembers f (skip_ws r4) (obj_set acc k v)
                              else if Ascii.eqb c3 "}" then Some (JObj (obj_set acc k v), r4)
                              else None
                          | EmptyString => None
                          end
                      | None => None
                      end
                    else None
                | EmptyString => None
                end
            | None => None
            end
          else None
      | EmptyString => None
      end
  end.

(** [JSON.parse(text)]: [None] is a SyntaxError.  The fuel is enough: two
    nested calls always consume a code unit. *)
Definition JSON_parse (text : string) : option json :=
  match pvalue (2 * String.length text + 2) (skip_ws text) with
  | Some (v, rest) => if String.eqb (skip_ws rest) EmptyString then Some v else None
  | None => None
  end.

(** ** Parsing the model's response *)

(** [s.replace(/pat\s*/g, '')] for a non-empty literal [pat]. *)
Fixpoint replace_fence (fuel : nat) (pat s : string) : string :=
  match fuel with
  | O => s
  | S f =>
      match s with
      | EmptyString => EmptyString
      | String c s' =>
          if starts_with pat s
          then replace_fence f pat (ltrim (substring (String.length pat) (String.length s) s))
          else String c (replace_fence f pat s')
      end
  end.

Definition fence : string := "```".

(** [response.replace(/```json\s*/g, '').replace(/```\s*/g, '')] *)
Definition strip_fences (response : string) : string :=
  let r1 := replace_fence (S (String.length response)) (fence ++ "json") response in
  replace_fence (S (String.length r1)) fence r1.

Fixpoint from_first_open (s : string) : option string :=
  match s with
  | EmptyString => None
  | String c s' => if Ascii.eqb c "{" then Some s else from_first_open s'
  end.

Fixpoint last_close (s : string) (i : nat) (best : option nat) : option nat :=
  match s with
  | EmptyString => best
  | String c s' => last_close s' (S i) (if Ascii.eqb c "}" then Some i else best)
  end.

(** [s.match(/\{[\s\S]*\}/)[0]]: from the first opening brace to the last
    closing brace after it. *)
Definition brace_span (s : string) : option string :=
  match from_first_open s with
  | None => None
  | Some t =>
      match last_close t 0 None with
      | Some k => Some (substring 0 (S k) t)
      | None => None
      end
  end.

(** Lines 528-557: the three parse attempts on the response text. *)
Definition parse_response (response : string) : outcome json :=
  match JSON_parse response with
  | Some j => Ret j
  | None =>
      let cleanedResponse := strip_fences response in
      match JSON_parse cleanedResponse with
      | Some j => Ret j
      | None =>
          match brace_span cleanedResponse with
          | Some m =>
              match JSON_parse m with
              | Some j => Ret j
              | None => Throw "Invalid JSON response from OpenAI"
              end
          | None => Throw "No valid JSON found in OpenAI response"
          end
      end
  end.

(** ** The derivation orchestrator *)

(** What the chat-completion call gives back: an error (transport failure,
    non-success response, missing choice) or the message content. *)
Inductive llm_outcome : Type :=
| LlmFailure
| LlmContent (content : string).

(** The value [generateJournalEntry] resolves to: the parsed model output,
    or the entry of [createFallbackJournalEntry]. *)
Inductive Derived : Type :=
| FromModel (j : json)
| FromFallback (e : JournalEntry).

Section Derivation.

(** [new Date(v).toLocaleDateString('en-GB')], [None] for an invalid date:
    engine- and time-zone-dependent, so left as a parameter. *)
Variable dateOf : json -> option string.

(** [extractDateFromOCR(ocrData)], [None] for [null]. *)
Definition extractDateFromOCR (ocrData : json) : option string :=
  match get ocrData "date" with
  | None => None                      (* TypeError on [null], caught *)
  | Some d =>
      let pd := match get ocrData "purchaseDate" with Some v => v | None => None end in
      let try_field (v : option json) :=
        if truthy v then match v with Some x => dateOf x | None => None end else None in
      match try_field d with Some r => Some r | None =>
      match try_field pd with Some r => Some r | None =>
      match first_match date_match_at (stringify ocrData) with
      | Some m => dateOf (JStr m)
      | None => None
      end end end
  end.

(** [extractDateFromOCR(ocrData) || new Date().toLocaleDateString('en-GB')],
    the current date being [today]. *)
Definition fallback_date (ocrData : json) (today : string) : string :=
  match extractDateFromOCR ocrData with
  | Some d => if String.eqb d EmptyString then today else d
  | None => today
  end.

(** The catch block of [generateJournalEntry] (lines 565-568). *)
Definition fallback_derive (ocrData : json) (today : string) : outcome JournalEntry :=
  createFallbackJournalEntry ocrData (extractAmountFromOCR ocrData) (fallback_date ocrData today).

(** [generateJournalEntry(ocrData)].  The try block first computes
    [fallbackAmount], [fallbackDate] and the prompt; none of them can
    raise and they do not reach the result, so only the completion and
    its parsing decide the outcome. *)
Definition generateJournalEntry (ocrData : json) (llm : llm_outcome) (today : string)
  : outcome Derived :=
  let fallback :=
    match fallback_derive ocrData today with
    | Ret e => Ret (FromFallback e)
    | Throw err => Throw err
    end in
  match llm with
  | LlmFailure => fallback
  | LlmContent response =>
      match parse_response response with
      | Ret journalEntry => Ret (FromModel journalEntry)
      | Throw _ => fallback
      end
  end.

End Derivation.

(** ** Access control: [checkAccess] *)

(** A query-string value as the query parser gives it: a string, or a
    structured value (an array or an object, from a repeated or bracketed
    parameter). *)
Inductive qval : Type :=
| QStr (s : string)
| QOther.

(** What a middleware does with a request: hand it on ([next()]) or answer
    it with a status and an error message. *)
Inductive gate : Type :=
| Next
| Deny (status : nat) (error : string).

(** [process.env.ACCESS_CODE || null]: [None] when unset or empty. *)
Definition ACCESS_CODE (env : option string) : option string :=
  match env with
  | Some s => if String.eqb s EmptyString then None else Some s
  | None => None
  end.

(** [req.headers['x-access-code'] || req.query.access_code] *)
Definition providedCode (header : option string) (query : option qval) : option qval :=
  match header with
  | Some h => if String.eqb h EmptyString then query else Some (QStr h)
  | None => query
  end.

Definition qval_eqb (v : option qval) (s : string) : bool :=
  match v with Some (QStr t) => String.eqb t s | _ => false end.

(** [checkAccess(req, res, next)] with [env] the value of
    [process.env.ACCESS_CODE]. *)
Definition checkAccess (env : option string) (header : option string) (query : option qval) : gate :=
  match ACCESS_CODE env with
  | None => Next
  | Some code =>
      if qval_eqb (providedCode header query) code then Next
      else Deny 401 "Access denied. Valid access code required."
  end.

(** ** Upload filter: [fileFilter] *)

(** [path.extname(p)] of Node's POSIX path module: the scan from the end
    of [p] keeps the position of the last dot, the end of the last path
    part and whether anything but dots precedes that dot. *)
Fixpoint extname_scan (p : string) (k : nat) (startDot : option nat) (endi : option nat)
  (matchedSlash : bool) (preDotState : Z) : option nat * nat * option nat * Z :=
  match k with
  | O => (startDot, 0, endi, preDotState)
  | S i =>
      match String.get i p with
      | None => (startDot, 0, endi, preDotState)
      | Some c =>
          if Ascii.eqb c "/" then
            if negb matchedSlash then (startDot, S i, endi, preDotState)
            else extname_scan p i startDot endi matchedSlash preDotState
          else
            let '(endi', matchedSlash') :=
              match endi with None => (Some (S i), false) | Some e => (Some e, matchedSlash) end in
            if Ascii.eqb c "." then
              match startDot with
              | None => extname_scan p i (Some i) endi' matchedSlash' preDotState
              | Some _ =>
                  extname_scan p i startDot endi' matchedSlash'
                    (if (preDotState =? 1)%Z then preDotState else 1%Z)
              end
            else
              match startDot with
              | Some _ => extname_scan p i startDot endi' matchedSlash' (-1)%Z
              | None => extname_scan p i startDot endi' matchedSlash' preDotState
              end
      end
  end.

Definition extname (p : string) : string :=
  match extname_scan p (String.length p) None None true 0%Z with
  | (Some startDot, startPart, Some e, preDotState) =>
      if (preDotState =? 0)%Z
         || ((preDotState =? 1)%Z && (startDot =? e - 1) && (startDot =? startPart + 1))
      then EmptyString
      else substring startDot (e - startDot) p
  | _ => EmptyString
  end.

(** The fields of multer's file object that the filter reads; [size] is
    [None] when the property is [undefined]. *)
Record file_info := mkFile {
  originalname : string;
  mimetype : string;
  size : option Z }.

(** [/jpeg|jpg|png|pdf/.test(s)] *)
Definition allowedTypes_test (s : string) : bool :=
  includes s "jpeg" || includes s "jpg" || includes s "png" || includes s "pdf".

Definition allowedMimeTypes : list string :=
  ["image/jpeg"; "image/jpg"; "image/png"; "application/pdf"].

Definition size_limit : Z := (5 * 1024 * 1024)%Z.

(** [file.size <= 5 * 1024 * 1024]; [undefined <= n] is false. *)
Definition size_ok (sz : option Z) : bool :=
  match sz with Some n => (n <=? size_limit)%Z | None => false end.

(** [fileFilter(req, file, cb)]: [Ret true] is [cb(null, true)], [Throw m]
    is [cb(new Error(m))]. *)
Definition fileFilter (file : file_info) : outcome bool :=
  let extname_ok := allowedTypes_test (toLowerCase (extname (originalname file))) in
  let mimetype_ok := existsb (String.eqb (mimetype file)) allowedMimeTypes in
  if includes (originalname file) ".." || includes (originalname file) "/" then
    Throw "Invalid filename"
  else if mimetype_ok && extname_ok && size_ok (size file) then Ret true
  else Throw "Only .png, .jpg, .jpeg and .pdf files under 5MB are allowed!".

(** ** The error-handling middleware *)

(** An error reaching the error middleware: a [multer.MulterError] with
    its code, or any other error with its message. *)
Inductive server_error : Type :=
| MulterError (code : string)
| PlainError (message : string).

(** A response: status and body.  [OkBody] is the body of a successful
    upload, [ErrBody] the [{ error }] object. *)
Inductive body : Type :=
| OkBody (ocrData : json) (journalEntry : Derived)
| ErrBody (error : string).

Record response := mkResponse { status : nat; resp_body : body }.

(** The error middleware (lines 623-632). *)
Definition errorHandler (err : server_error) : response :=
  match err with
  | MulterError c =>
      if String.eqb c "LIMIT_FILE_SIZE"
      then mkResponse 400 (ErrBody "File size too large. Maximum size is 10MB.")
      else mkResponse 500 (ErrBody "Internal server error")
  | PlainError _ => mkResponse 500 (ErrBody "Internal server error")
  end.

(** ** OCR service: [processOCR] *)

Inductive http_method : Type := GET | POST.

(** Where the token goes: the query ([params]), the path, or the body
    ([data]). *)
Inductive token_place : Type := InParams | InPath | InData.

Record endpoint := mkEndpoint { ep_method : http_method; ep_url : string; ep_token : token_place }.

(** [endpointConfigs], in the order of the source; a path endpoint's URL
    is the prefix the token is appended to. *)
Definition endpointConfigs : list endpoint :=
  [ mkEndpoint GET "https://api.tabscanner.com/api/result" InParams;
    mkEndpoint GET "https://api.tabscanner.com/api/2/result" InParams;
    mkEndpoint GET "https://api.tabscanner.com/api/result/" InPath;
    mkEndpoint GET "https://api.tabscanner.com/result/" InPath;
    mkEndpoint POST "https://api.tabscanner.com/api/result" InData;
    mkEndpoint POST "https://api.tabscanner.com/api/2/result" InData ].

(** [v.k] of a value known not to be [null] or [undefined]. *)
Definition field (v : json) (k : string) : option json :=
  match get v k with Some r => r | None => None end.

(** The [for] loop over the endpoints: the data of the first request that
    does not throw, [None] when all throw ([resultResponse] stays
    [undefined]).  [call ep token] is [Some data] when the request
    resolves and [None] when it throws. *)
Fixpoint first_result (call : endpoint -> json -> option json) (token : json) (eps : list endpoint)
  : option json :=
  match eps with
  | [] => None
  | ep :: rest =>
      match call ep token with
      | Some d => Some d
      | None => first_result call token rest
      end
  end.

(** [resultResponse.data.result], else [resultResponse.data.data], else
    [resultResponse.data]. *)
Definition select_result (d : json) : json :=
  if truthy (Some d) && truthy (field d "result") then
    match field d "result" with Some r => r | None => d end
  else if truthy (Some d) && truthy (field d "data") then
    match field d "data" with Some r => r | None => d end
  else d.

(** [processOCR(filePath)].  [upload] is the data of the upload request,
    [None] when it throws; the waits only delay.  Every error is replaced
    by [new Error('OCR processing failed')] in the catch block. *)
Definition processOCR (upload : option json) (call : endpoint -> json -> option json)
  : outcome json :=
  match upload with
  | None => Throw "OCR processing failed"
  | Some data =>
      if truthy (Some data) && (truthy (field data "token") || truthy (field data "duplicateToken"))
      then
        let token := if truthy (field data "token") then field data "token"
                     else field data "duplicateToken" in
        let token := match token with Some t => t | None => JNull end in
        match first_result call token endpointConfigs with
        | None => Throw "OCR processing failed"
        | Some d => Ret (select_result d)
        end
      else Ret data
  end.

(** ** The upload route *)

(** [error.message || 'Processing failed'] *)
Definition error_message (m : string) : string :=
  if String.eqb m EmptyString then "Processing failed" else m.

Definition enoent (p : string) : string :=
  "ENOENT: no such file or directory, unlink '" ++ p ++ "'".

(** The handler of [POST /api/upload] after the middlewares.  [file] is
    [req.file.path] when a file was stored; [present] says whether the
    file is on disk, and the second component of the result whether it
    still is afterwards ([fs.unlinkSync] removes an existing file and
    throws ENOENT on a missing one).  [ocr] is the outcome of
    [processOCR] and [derive] that of [generateJournalEntry] on its
    result.  The error text of an outcome stands for [error.message]: the
    label [TypeError] of the fallback stands for the engine's message (such
    as [merchant.toLowerCase is not a function]), which is not spelt out. *)
Definition upload_handler (file : option string) (present : bool) (ocr : outcome json)
  (derive : json -> outcome Derived) : response * bool :=
  match file with
  | None => (mkResponse 400 (ErrBody "No file uploaded"), present)
  | Some p =>
      (* the catch block removes the file when [fs.existsSync] finds it *)
      let catch (m : string) := (mkResponse 500 (ErrBody (error_message m)), false) in
      match ocr with
      | Throw m => catch m
      | Ret ocrData =>
          match derive ocrData with
          | Throw m => catch m
          | Ret journalEntry =>
              if present then (mkResponse 200 (OkBody ocrData journalEntry), false)
              else catch (enoent p)
          end
      end
  end.

(** [POST /api/upload]: [checkAccess], then multer with [fileFilter] (a
    filter error goes to the error middleware; multer's own size and count
    limits are not modelled), then the handler.  An accepted file is
    stored at [stored] before the handler runs. *)
Definition upload_route (dateOf : json -> option string) (env header : option string)
  (query : option qval) (upload : option file_info) (stored : string)
  (ocr_upload : option json) (call : endpoint -> json -> option json)
  (llm : llm_outcome) (today : string) : response * bool :=
  match checkAccess env header query with
  | Deny st msg => (mkResponse st (ErrBody msg), false)
  | Next =>
      match upload with
      | None => upload_handler None false (processOCR ocr_upload call)
                  (fun o => generateJournalEntry dateOf o llm today)
      | Some f =>
          match fileFilter f with
          | Throw m => (errorHandler (PlainError m), false)
          | Ret _ => upload_handler (Some stored) true (processOCR ocr_upload call)
                       (fun o => generateJournalEntry dateOf o llm today)
          end
      end
  end.

(** ** Sample inputs of the upload pipeline *)

(** An upload reply holding a token. *)
Definition token_reply : json := JObj [("token", JStr "abc")].

(** A result service where only the path endpoints answer. *)
Definition path_only_call (ep : endpoint) (_ : json) : option json :=
  match ep_token ep with
  | InPath => Some (JObj [("result", JObj [("total", JNum 42 0)])])
  | _ => None
  end.

(** The code units a key may not hold for the lemma below: control
    characters, the double quote, the backslash and the apostrophe. *)
Definition key_special (c : ascii) : bool :=
  (code c <? 32) || (code c =? 34) || (code c =? 92) || (code c =? 39).

(** ** Observations on entries *)

(** The sum of the amounts of the ledger lines of one type. *)
Definition sum_type (ty : string) (es : list LedgerLine) : jsnum :=
  fold_left js_add (map amount (filter (fun l => String.eqb (type l) ty) es)) (Num 0).

(** [Math.abs(x - y) <= tol]; false on NaN. *)
Definition js_within (x y : jsnum) (tol : Q) : bool :=
  match x, y with Num a, Num b => Qle_bool (Qabs (a - b)) tol | _, _ => false end.

Fixpoint has_char (p : ascii -> bool) (s : string) : bool :=
  match s with
  | EmptyString => false
  | String c s' => p c || has_char p s'
  end.

(** The if-chain read as a first-match search over a rule table. *)
Fixpoint first_rule (merchantLower ocrText : string) (rules : list (list string * (string * string)))
  : string * string :=
  match rules with
  | [] => default_category
  | (ks, r) :: rest => if mentions merchantLower ocrText ks then r else first_rule merchantLower ocrText rest
  end.

Definition is_open (c : ascii) : bool := Ascii.eqb c "{".
Definition is_close (c : ascii) : bool := Ascii.eqb c "}".

(** ** Concrete inputs *)

(** A model reply whose totals differ. *)
Definition unbalanced_reply : string :=
  "{" ++ quote "totalDebit" ++ ": 100, " ++ quote "totalCredit" ++ ": 50}".

(** A receipt whose merchant field is a nested object. *)
Definition nested_merchant_ocr : json :=
  JObj [("establishment", JObj [("name", JStr "Cafe Roma")])].

(** A receipt with two text fields and no digit anywhere. *)
Definition no_number_ocr : json :=
  JObj [("establishment", JStr "Cafe Roma"); ("address", JStr "Main Street")].

(** A receipt with a three-decimal total and a VAT mention. *)
Definition vat_16125_ocr : json :=
  JObj [("total", JNum 16125 (-3)); ("note", JStr "incl. VAT")].

(** JSON followed by prose that closes a brace. *)
Definition brace_prose_reply : string :=
  "Here is the entry: {" ++ quote "totalDebit" ++ ": 25.5} :-}".

Definition brace_prose_object : string := "{" ++ quote "totalDebit" ++ ": 25.5}".

Definition newline : string := String (ascii_of_nat 10) EmptyString.

(** A fenced JSON object inside prose. *)
Definition fenced_reply : string :=
  "Here you go:" ++ newline ++ fence ++ "json" ++ newline
  ++ brace_prose_object ++ newline ++ fence ++ " Thanks".

(** Scenario B of the spec: a total of 119 and a VAT mention. *)
Definition scenario_b_ocr : json := JObj [("total", JNum 119 0); ("text", JStr "VAT 19%")].

(** * Properties *)

Open Scope Q_scope.

(** ** Sample evaluations of the embedding *)

Example stringify_ex1 :
  stringify (JObj [("total", JNum 2550 (-2)); ("n", JNum 5 21); ("k", JNum (-7) (-8))])
  = "{" ++ quote "total" ++ ":25.5," ++ quote "n" ++ ":5e+21," ++ quote "k" ++ ":-7e-8}".
Proof. reflexivity. Qed.

Example amount_ex1 :
  extractAmountFromOCR (JObj [("total", JNum 2550 (-2)); ("establishment", JStr "Test Merchant")])
  = Num (num_value 2550 (-2)).
Proof. reflexivity. Qed.

Example amount_ex2 :
  extractAmountFromOCR (JObj [("total", JStr "EUR 1,234.50")]) = Num (num_value 123450 (-2)).
Proof. reflexivity. Qed.

Example amount_ex3 :
  extractAmountFromOCR (JObj [("lines", JArr [JStr "1,5"; JNum 12 0; JStr "7.125"])]) = Num (num_value 15 0).
Proof. reflexivity. Qed.

Example amount_ex4 : extractAmountFromOCR (JObj []) = Num 10.
Proof. reflexivity. Qed.

(** ** The generative path returns what it parsed *)

Lemma model_reply_returned :
  forall dateOf ocrData response today j,
    parse_response response = Ret j ->
    generateJournalEntry dateOf ocrData (LlmContent response) today = Ret (FromModel j).
Proof.
  intros dateOf ocrData response today j Hparse.
  unfold generateJournalEntry. rewrite Hparse. reflexivity.
Qed.

(** C10: whenever one of the three parse stages succeeds, the orchestrator
    resolves to exactly the parsed value: no balance, field or schema check
    stands between [JSON.parse] and the caller. *)
Theorem C10_parsed_reply_returned_unchanged :
  forall dateOf ocrData response today j,
    parse_response response = Ret j ->
    generateJournalEntry dateOf ocrData (LlmContent response) today = Ret (FromModel j).
Proof. exact model_reply_returned. Qed.

Lemma C10_witness :
  parse_response unbalanced_reply
    = Ret (JObj [("totalDebit", JNum 100 0); ("totalCredit", JNum 50 0)])
  /\ generateJournalEntry (fun _ => None) (JObj []) (LlmContent unbalanced_reply) "19/10/2026"
     = Ret (FromModel (JObj [("totalDebit", JNum 100 0); ("totalCredit", JNum 50 0)])).
Proof.
  split.
  - vm_compute. reflexivity.
  - apply C10_parsed_reply_returned_unchanged. vm_compute. reflexivity.
Defined.

(** C1 (counterexample): a model reply with totals 100 and 50 is resolved
    as is, so the caller receives an unbalanced entry. *)
Lemma C1_counterexample :
  exists j,
    generateJournalEntry (fun _ => None) (JObj []) (LlmContent unbalanced_reply) "19/10/2026"
      = Ret (FromModel j)
    /\ get j "totalDebit" = Some (Some (JNum 100 0))
    /\ get j "totalCredit" = Some (Some (JNum 50 0))
    /\ js_within (Num 100) (Num 50) (1 # 100) = false.
Proof.
  eexists. split; [vm_compute; reflexivity |].
  vm_compute. repeat split.
Qed.

(** ** The fallback path can throw *)

(** C2 (code bug): when the completion fails and the OCR merchant field is
    an object, [createFallbackJournalEntry] calls [toLowerCase] on it and
    the TypeError leaves [generateJournalEntry]. *)
Theorem C2_fallback_throws_on_object_merchant :
  forall dateOf today,
    generateJournalEntry dateOf nested_merchant_ocr LlmFailure today = Throw "TypeError".
Proof. intros dateOf today. vm_compute. reflexivity. Qed.

(** ** A receipt without numbers *)

(** C7 (code bug): a receipt with two text fields and no digit anywhere
    does not get the default amount 10: the text search matches the comma
    between the fields, [parseFloat('')] is NaN, and so are the amount and
    both totals of the fallback entry. *)
Theorem C7_no_number_amount_is_NaN :
  has_char is_digit (stringify no_number_ocr) = false
  /\ extractAmountFromOCR no_number_ocr = NaN
  /\ forall dateOf today,
       exists e, fallback_derive dateOf no_number_ocr today = Ret e
                 /\ totalDebit e = NaN /\ totalCredit e = NaN
                 /\ js_within (totalDebit e) (totalCredit e) (1 # 100) = false.
Proof.
  split; [vm_compute; reflexivity |].
  split; [vm_compute; reflexivity |].
  intros dateOf today. eexists. split; [vm_compute; reflexivity |].
  vm_compute. repeat split.
Qed.

(** ** The current date enters the fallback entry *)

(** C9 (counterexample): the same OCR result derived on two days gives two
    different entries. *)
Lemma C9_counterexample :
  fallback_derive (fun _ => None) (JObj []) "19/10/2026"
  <> fallback_derive (fun _ => None) (JObj []) "20/10/2026".
Proof.
  intro H.
  apply (f_equal (fun o => match o with Ret e => date e | Throw _ => EmptyString end)) in H.
  vm_compute in H. discriminate H.
Qed.

(** ** Stage three of the response parsing *)

(** C6 (counterexample): a JSON object followed by prose that closes a
    brace.  The object alone parses, but the span from the first opening to
    the last closing brace does not, so parsing raises and the orchestrator
    falls back. *)
Lemma C6_counterexample :
  brace_prose_reply = "Here is the entry: " ++ brace_prose_object ++ " :-}"
  /\ JSON_parse brace_prose_object = Some (JObj [("totalDebit", JNum 255 (-1))])
  /\ parse_response brace_prose_reply = Throw "Invalid JSON response from OpenAI"
  /\ exists e, generateJournalEntry (fun _ => None) (JObj []) (LlmContent brace_prose_reply)
                 "19/10/2026" = Ret (FromFallback e).
Proof.
  split; [reflexivity |].
  split; [vm_compute; reflexivity |].
  split; [vm_compute; reflexivity |].
  eexists. vm_compute. reflexivity.
Qed.

(** ** The VAT policy *)

Lemma js_div_rate : forall g, js_div (Num g) (Num (119 # 100)) = Num (g / (119 # 100)).
Proof. intro g. reflexivity. Qed.

Lemma rate_denominator : 1 + standardRate == 119 # 100.
Proof. reflexivity. Qed.

(** C3: VAT is present exactly when the lower-cased serialized OCR result
    contains [vat], [tax] or [19%]; then the net amount is [g / 1.19], the
    VAT amount the rest of [g] and the rate 0.19, otherwise the net amount
    is [g] and VAT amount and rate are 0; in both cases net plus VAT is [g]
    within 0.01. *)
Theorem C3_vat_policy :
  forall (g : Q) (ocrData : json),
    let ocrText := toLowerCase (stringify ocrData) in
    let sp := vat_amounts (Num g) ocrText in
    (if includes ocrText "vat" || includes ocrText "tax" || includes ocrText "19%"
     then js_eq (split_net sp) (Num (g / (1 + standardRate))) = true
          /\ js_eq (split_vat sp) (Num (g - g / (1 + standardRate))) = true
          /\ split_rate sp = Num standardRate
     else split_net sp = Num g /\ split_vat sp = Num 0 /\ split_rate sp = Num 0)
    /\ exists n v, split_net sp = Num n /\ split_vat sp = Num v /\ Qabs (n + v - g) <= 1 # 100.
Proof.
  intros g ocrData ocrText sp. subst sp.
  unfold vat_amounts, hasVAT.
  destruct (includes ocrText "vat" || includes ocrText "tax" || includes ocrText "19%").
  - rewrite js_div_rate. split.
    + simpl. rewrite !Qeq_bool_iff. rewrite rate_denominator.
      split; [reflexivity | split; reflexivity].
    + exists (g / (119 # 100)), (g - g / (119 # 100)).
      split; [reflexivity | split; [reflexivity |]].
      apply Qabs_Qle_condition. split; lra.
  - split; [repeat split |].
    exists g, 0. split; [reflexivity | split; [reflexivity |]].
    apply Qabs_Qle_condition. split; lra.
Qed.

(** ** Shape of the fallback entry *)

Lemma vat_line_guard :
  forall amt ocrText,
    hasVAT ocrText && js_gt (split_vat (vat_amounts amt ocrText)) (Num 0)
    = js_gt (split_vat (vat_amounts amt ocrText)) (Num 0).
Proof. intros amt ocrText. unfold vat_amounts. destruct (hasVAT ocrText); reflexivity. Qed.

Lemma fallback_shape :
  forall ocrData amt d e,
    createFallbackJournalEntry ocrData amt d = Ret e ->
    let ocrText := toLowerCase (stringify ocrData) in
    let sp := vat_amounts amt ocrText in
    let cat := classify (toLowerCase (merchant e)) ocrText in
    entries e =
      ([mkLine "debit" (fst cat) (fixed2 (split_net sp)) (snd cat)]
       ++ (if js_gt (split_vat sp) (Num 0)
           then [mkLine "debit" "VAT Input Tax" (fixed2 (split_vat sp)) "VAT 19%"] else [])
       ++ [mkLine "credit" "Cash/Bank Account" (fixed2 amt) "Payment"])%list
    /\ totalDebit e = fixed2 amt
    /\ totalCredit e = fixed2 amt
    /\ vatBreakdown e = mkVat (fixed2 (split_net sp)) (fixed2 (split_vat sp)) (fixed2 amt)
                              (split_rate sp).
Proof.
  intros ocrData amt d e H.
  unfold createFallbackJournalEntry in H.
  destruct (find_merchant ocrData) as [m | err]; [| discriminate H].
  revert H.
  destruct (classify (toLowerCase m) (toLowerCase (stringify ocrData))) as [acct desc] eqn:Hc.
  intro H. injection H as <-. cbn zeta. simpl merchant.
  rewrite Hc, vat_line_guard. repeat split.
Qed.

(** C4: the fallback ledger is the net expense debit on the classified
    account, then a VAT Input Tax debit exactly when [vatAmount > 0], then
    the gross credit on Cash/Bank Account, in this order. *)
Theorem C4_fallback_ledger_lines :
  forall ocrData amt d e,
    createFallbackJournalEntry ocrData amt d = Ret e ->
    let ocrText := toLowerCase (stringify ocrData) in
    let sp := vat_amounts amt ocrText in
    let cat := classify (toLowerCase (merchant e)) ocrText in
    entries e =
      ([mkLine "debit" (fst cat) (fixed2 (split_net sp)) (snd cat)]
       ++ (if js_gt (split_vat sp) (Num 0)
           then [mkLine "debit" "VAT Input Tax" (fixed2 (split_vat sp)) "VAT 19%"] else [])
       ++ [mkLine "credit" "Cash/Bank Account" (fixed2 amt) "Payment"])%list.
Proof.
  intros ocrData amt d e H. exact (proj1 (fallback_shape ocrData amt d e H)).
Qed.

Lemma C4_witness :
  exists e,
    createFallbackJournalEntry scenario_b_ocr (Num 119) "19/10/2026" = Ret e
    /\ entries e =
       ([mkLine "debit" (fst (classify (toLowerCase (merchant e)) (toLowerCase (stringify scenario_b_ocr))))
                (fixed2 (split_net (vat_amounts (Num 119) (toLowerCase (stringify scenario_b_ocr)))))
                (snd (classify (toLowerCase (merchant e)) (toLowerCase (stringify scenario_b_ocr))))]
        ++ (if js_gt (split_vat (vat_amounts (Num 119) (toLowerCase (stringify scenario_b_ocr)))) (Num 0)
            then [mkLine "debit" "VAT Input Tax"
                    (fixed2 (split_vat (vat_amounts (Num 119) (toLowerCase (stringify scenario_b_ocr)))))
                    "VAT 19%"]
            else [])
        ++ [mkLine "credit" "Cash/Bank Account" (fixed2 (Num 119)) "Payment"])%list
    /\ length (entries e) = 3%nat.
Proof.
  eexists. split; [vm_compute; reflexivity |].
  split.
  - exact (C4_fallback_ledger_lines scenario_b_ocr (Num 119) "19/10/2026" _ eq_refl).
  - vm_compute. reflexivity.
Defined.

(** ** Rounding to cents *)

Lemma cents_bounds :
  forall q, inject_Z (cents q) <= q * 100 + (1 # 2) /\ q * 100 + (1 # 2) < inject_Z (cents q) + 1.
Proof.
  intro q. unfold cents. split.
  - apply Qfloor_le.
  - pose proof (Qlt_floor (q * 100 + (1 # 2))) as H.
    rewrite inject_Z_plus in H. exact H.
Qed.

Lemma Qmake_100 : forall z, (z # 100) == inject_Z z * (1 # 100).
Proof. intro z. unfold Qeq. simpl. lia. Qed.

Lemma fixed2_close :
  forall q, exists r, fixed2 (Num q) = Num r /\ Qabs (r - q) <= 1 # 200.
Proof.
  intro q. unfold fixed2.
  destruct (Qle_bool (inject_Z (10 ^ 21)) (Qabs q)).
  - exists q. split; [reflexivity |].
    apply Qabs_Qle_condition. split; lra.
  - destruct (Qle_bool 0 q).
    + exists (cents q # 100). split; [reflexivity |].
      destruct (cents_bounds q) as [H1 H2].
      rewrite Qmake_100. apply Qabs_Qle_condition. split; lra.
    + exists (- cents (- q) # 100). split; [reflexivity |].
      destruct (cents_bounds (- q)) as [H1 H2].
      rewrite Qmake_100, inject_Z_opp. apply Qabs_Qle_condition. split; lra.
Qed.

(** ** Totals of the fallback entry *)

(** C5 (counterexample): for a gross amount of 16.125 with VAT, the
    two debit lines are rounded on their own to 13.55 and 2.57, which add
    up to 16.12, while [totalDebit] is the rounded gross 16.13. *)
Lemma C5_counterexample :
  exists e,
    createFallbackJournalEntry vat_16125_ocr (extractAmountFromOCR vat_16125_ocr) "19/10/2026"
      = Ret e
    /\ extractAmountFromOCR vat_16125_ocr = Num (16125 # 1000)
    /\ map amount (filter (fun l => String.eqb (type l) "debit") (entries e))
       = [Num (1355 # 100); Num (257 # 100)]
    /\ totalDebit e = Num (1613 # 100)
    /\ js_eq (sum_type "debit" (entries e)) (totalDebit e) = false.
Proof.
  eexists. split; [vm_compute; reflexivity |].
  vm_compute. repeat split.
Qed.

Lemma sum_credit :
  forall acct desc x vs z,
    Forall (fun l => type l = "debit") vs ->
    sum_type "credit"
      ([mkLine "debit" acct x desc] ++ vs
       ++ [mkLine "credit" "Cash/Bank Account" (Num z) "Payment"])%list = Num (0 + z).
Proof.
  intros acct desc x vs z Hvs. unfold sum_type. simpl filter.
  rewrite filter_app.
  replace (filter (fun l => String.eqb (type l) "credit") vs) with (@nil LedgerLine).
  - reflexivity.
  - induction Hvs as [| l vs Hl _ IH]; [reflexivity |].
    simpl. rewrite Hl. exact IH.
Qed.

(** C5 (amended): for a gross amount [g], both totals and
    [vatBreakdown.grossAmount] are [parseFloat(g.toFixed(2))], and the one
    credit line adds up to [totalCredit] exactly.  The debit lines are
    rounded one by one and need not add up to [totalDebit]
    ([C5_counterexample]). *)
Theorem C5_fallback_totals :
  forall ocrData g d e,
    createFallbackJournalEntry ocrData (Num g) d = Ret e ->
    totalDebit e = fixed2 (Num g)
    /\ totalCredit e = fixed2 (Num g)
    /\ grossAmount (vatBreakdown e) = fixed2 (Num g)
    /\ js_eq (sum_type "credit" (entries e)) (totalCredit e) = true.
Proof.
  intros ocrData g d e H.
  destruct (fallback_shape ocrData (Num g) d e H) as [Hent [Hd [Hc Hv]]].
  rewrite Hd, Hc, Hv. simpl grossAmount.
  split; [reflexivity | split; [reflexivity | split; [reflexivity |]]].
  rewrite Hent. clear Hent Hd Hc Hv H.
  destruct (fixed2_close g) as [rg [Erg _]].
  rewrite Erg, sum_credit.
  - simpl. apply Qeq_bool_iff. ring.
  - destruct (js_gt _ _); repeat constructor.
Qed.

Lemma C5_witness :
  exists e,
    createFallbackJournalEntry scenario_b_ocr (Num 119) "19/10/2026" = Ret e
    /\ totalDebit e = fixed2 (Num 119)
    /\ totalCredit e = fixed2 (Num 119)
    /\ grossAmount (vatBreakdown e) = fixed2 (Num 119)
    /\ js_eq (sum_type "credit" (entries e)) (totalCredit e) = true.
Proof.
  eexists. split; [vm_compute; reflexivity |].
  apply (C5_fallback_totals scenario_b_ocr 119 "19/10/2026").
  vm_compute. reflexivity.
Defined.

(** ** Balance of the entry returned by the orchestrator *)

Lemma generate_fallback_inv :
  forall dateOf ocrData llm today e,
    generateJournalEntry dateOf ocrData llm today = Ret (FromFallback e) ->
    fallback_derive dateOf ocrData today = Ret e.
Proof.
  intros dateOf ocrData llm today e H. unfold generateJournalEntry in H.
  destruct (fallback_derive dateOf ocrData today) as [e' | err] eqn:Ef.
  - destruct llm as [| response]; [injection H as ->; reflexivity |].
    destruct (parse_response response); [discriminate H |].
    injection H as ->. reflexivity.
  - destruct llm as [| response]; [discriminate H |].
    destruct (parse_response response); discriminate H.
Qed.

Lemma fixed2_self_eq : forall x, x <> NaN -> js_eq (fixed2 x) (fixed2 x) = true.
Proof.
  intros [| q] Hx; [congruence |].
  destruct (fixed2_close q) as [r [Er _]]. rewrite Er. simpl.
  apply Qeq_bool_iff. reflexivity.
Qed.

(** C1 (amended): an entry built by the fallback path from a non-NaN
    amount has [totalDebit] equal to [totalCredit]; the value of the
    generative path is whatever the reply parsed to, returned without any
    balance or field check. *)
Theorem C1_fallback_balanced_model_unchecked :
  forall dateOf ocrData llm today,
    (forall e,
       generateJournalEntry dateOf ocrData llm today = Ret (FromFallback e) ->
       extractAmountFromOCR ocrData <> NaN ->
       js_eq (totalDebit e) (totalCredit e) = true)
    /\ (forall response j,
          llm = LlmContent response ->
          parse_response response = Ret j ->
          generateJournalEntry dateOf ocrData llm today = Ret (FromModel j)).
Proof.
  intros dateOf ocrData llm today. split.
  - intros e H Hamt.
    apply generate_fallback_inv in H. unfold fallback_derive in H.
    destruct (fallback_shape _ _ _ _ H) as [_ [Hd [Hc _]]].
    rewrite Hd, Hc. apply fixed2_self_eq. exact Hamt.
  - intros response j -> Hparse. apply model_reply_returned. exact Hparse.
Qed.

Lemma C1_witness :
  (exists e,
     generateJournalEntry (fun _ => None) scenario_b_ocr LlmFailure "19/10/2026"
       = Ret (FromFallback e)
     /\ js_eq (totalDebit e) (totalCredit e) = true)
  /\ generateJournalEntry (fun _ => None) (JObj []) (LlmContent unbalanced_reply) "19/10/2026"
     = Ret (FromModel (JObj [("totalDebit", JNum 100 0); ("totalCredit", JNum 50 0)])).
Proof.
  split.
  - eexists. split; [vm_compute; reflexivity |].
    apply (proj1 (C1_fallback_balanced_model_unchecked
                    (fun _ => None) scenario_b_ocr LlmFailure "19/10/2026")).
    + vm_compute. reflexivity.
    + vm_compute. discriminate.
  - apply (proj2 (C1_fallback_balanced_model_unchecked
                    (fun _ => None) (JObj []) (LlmContent unbalanced_reply) "19/10/2026")
             unbalanced_reply).
    + reflexivity.
    + vm_compute. reflexivity.
Defined.

(** ** What the fallback entry depends on *)

Lemma fallback_date_today :
  forall dateOf ocrData t1 t2,
    (exists d, extractDateFromOCR dateOf ocrData = Some d /\ d <> EmptyString) \/ t1 = t2 ->
    fallback_date dateOf ocrData t1 = fallback_date dateOf ocrData t2.
Proof.
  intros dateOf ocrData t1 t2 [[d [Hd Hne]] | <-]; [| reflexivity].
  unfold fallback_date. rewrite Hd.
  destruct (String.eqb_spec d EmptyString); [contradiction | reflexivity].
Qed.

Lemma fallback_entry_date :
  forall ocrData amt d1 d2 e1,
    createFallbackJournalEntry ocrData amt d1 = Ret e1 ->
    date e1 = d1 /\ exists e2, createFallbackJournalEntry ocrData amt d2 = Ret e2 /\ date e2 = d2.
Proof.
  intros ocrData amt d1 d2 e1 H. unfold createFallbackJournalEntry in *.
  destruct (find_merchant ocrData) as [m | err]; [| discriminate H].
  destruct (classify _ _) as [acct desc]. injection H as <-.
  split; [reflexivity |]. eexists. split; reflexivity.
Qed.

Lemma fallback_date_none :
  forall dateOf ocrData t,
    (forall d, extractDateFromOCR dateOf ocrData = Some d -> d = EmptyString) ->
    fallback_date dateOf ocrData t = t.
Proof.
  intros dateOf ocrData t H. unfold fallback_date.
  destruct (extractDateFromOCR dateOf ocrData) as [d |]; [| reflexivity].
  rewrite (H d eq_refl). reflexivity.
Qed.

(** C9 (amended): the fallback derivation also reads the current date.
    When a non-empty date is extracted from the OCR result, the same input
    (and the same completion outcome) gives the same result on any two
    days.  When none is, every fallback entry carries the current date, so
    the same input derived on two different days gives two different
    entries, and [generateJournalEntry] with a failed completion two
    different results. *)
Theorem C9_fallback_reads_today :
  forall dateOf ocrData,
    ((exists d, extractDateFromOCR dateOf ocrData = Some d /\ d <> EmptyString) ->
     forall t1 t2,
       fallback_derive dateOf ocrData t1 = fallback_derive dateOf ocrData t2
       /\ forall llm, generateJournalEntry dateOf ocrData llm t1
                      = generateJournalEntry dateOf ocrData llm t2)
    /\ ((forall d, extractDateFromOCR dateOf ocrData = Some d -> d = EmptyString) ->
        forall t1 t2 e1,
          fallback_derive dateOf ocrData t1 = Ret e1 ->
          date e1 = t1
          /\ exists e2, fallback_derive dateOf ocrData t2 = Ret e2
                        /\ date e2 = t2
                        /\ (t1 <> t2 ->
                            e1 <> e2
                            /\ generateJournalEntry dateOf ocrData LlmFailure t1
                               <> generateJournalEntry dateOf ocrData LlmFailure t2)).
Proof.
  intros dateOf ocrData. split.
  - intros Hd t1 t2.
    assert (E : fallback_derive dateOf ocrData t1 = fallback_derive dateOf ocrData t2).
    { unfold fallback_derive. rewrite (fallback_date_today dateOf ocrData t1 t2 (or_introl Hd)).
      reflexivity. }
    split; [exact E |].
    intro llm. unfold generateJournalEntry. rewrite E. reflexivity.
  - intros Hno t1 t2 e1 H1.
    unfold fallback_derive in *. rewrite (fallback_date_none dateOf ocrData t1 Hno) in H1.
    rewrite (fallback_date_none dateOf ocrData t2 Hno).
    destruct (fallback_entry_date _ _ _ t2 _ H1) as [D1 [e2 [H2 D2]]].
    split; [exact D1 |]. exists e2. split; [exact H2 |]. split; [exact D2 |].
    intro Hne. assert (Hee : e1 <> e2) by (intro Ee; apply Hne; congruence).
    split; [exact Hee |].
    unfold generateJournalEntry, fallback_derive.
    rewrite (fallback_date_none dateOf ocrData t1 Hno), (fallback_date_none dateOf ocrData t2 Hno).
    rewrite H1, H2. intro Eg. apply Hee. congruence.
Qed.

Lemma C9_witness :
  fallback_derive (fun _ => Some "01/02/2026") (JObj [("date", JStr "2026-02-01")]) "19/10/2026"
  = fallback_derive (fun _ => Some "01/02/2026") (JObj [("date", JStr "2026-02-01")]) "20/10/2026"
  /\ generateJournalEntry (fun _ => None) (JObj [("note", JStr "paid")]) LlmFailure "19/10/2026"
     <> generateJournalEntry (fun _ => None) (JObj [("note", JStr "paid")]) LlmFailure "20/10/2026".
Proof.
  split.
  - apply (proj1 (C9_fallback_reads_today
                    (fun _ => Some "01/02/2026") (JObj [("date", JStr "2026-02-01")]))).
    exists "01/02/2026". split; [vm_compute; reflexivity | discriminate].
  - destruct (fallback_derive (fun _ => None) (JObj [("note", JStr "paid")]) "19/10/2026")
      as [e1 | err] eqn:E.
    + destruct (proj2 (C9_fallback_reads_today (fun _ => None) (JObj [("note", JStr "paid")]))
                  (fun d Hd => ltac:(vm_compute in Hd; discriminate Hd))
                  "19/10/2026" "20/10/2026" e1 E) as [_ [e2 [_ [_ Hdiff]]]].
      apply Hdiff. discriminate.
    + vm_compute in E. discriminate E.
Defined.

(** ** Order of the classification rules *)

Lemma classify_table :
  forall m o, classify m o = first_rule m o category_rules.
Proof. reflexivity. Qed.

Lemma first_rule_nth :
  forall m o rules i ks r,
    nth_error rules i = Some (ks, r) ->
    mentions m o ks = true ->
    (forall j ks' r', (j < i)%nat -> nth_error rules j = Some (ks', r') -> mentions m o ks' = false) ->
    first_rule m o rules = r.
Proof.
  intros m o rules. induction rules as [| [ks0 r0] rest IH]; intros i ks r Hi Hm Hbefore.
  - destruct i; discriminate Hi.
  - destruct i as [| i].
    + simpl in Hi. injection Hi as <- <-. simpl. rewrite Hm. reflexivity.
    + simpl. rewrite (Hbefore 0%nat ks0 r0 ltac:(lia) eq_refl).
      apply (IH i ks r Hi Hm).
      intros j ks' r' Hj Hn. apply (Hbefore (S j) ks' r'); [lia | exact Hn].
Qed.

Lemma first_rule_none :
  forall m o rules,
    forallb (fun rule => negb (mentions m o (fst rule))) rules = true ->
    first_rule m o rules = default_category.
Proof.
  intros m o rules. induction rules as [| [ks r] rest IH]; intro H; [reflexivity |].
  simpl in H. apply andb_prop in H. destruct H as [H1 H2].
  simpl. destruct (mentions m o ks); [discriminate H1 |]. exact (IH H2).
Qed.

(** C8: the rules are tried in declaration order and the first one whose
    keywords occur in the merchant name or the OCR text gives the account;
    so of two matching rules the earlier one wins when no rule before it
    matches; a text with [cafe] (with or without [office]) gives Meals &
    Entertainment; a text matching no rule gives General Expenses. *)
Theorem C8_first_matching_rule_wins :
  (forall m o i ks r,
     nth_error category_rules i = Some (ks, r) ->
     mentions m o ks = true ->
     (forall j ks' r', (j < i)%nat -> nth_error category_rules j = Some (ks', r') ->
                       mentions m o ks' = false) ->
     classify m o = r)
  /\ (forall m o,
        (includes m "cafe" || includes o "cafe") = true ->
        classify m o = ("Meals & Entertainment", "Restaurant/Food expense"))
  /\ (forall m o,
        forallb (fun rule => negb (mentions m o (fst rule))) category_rules = true ->
        classify m o = default_category
        /\ fst (classify m o) = "General Expenses").
Proof.
  split; [| split].
  - intros m o i ks r Hi Hm Hbefore. rewrite classify_table.
    exact (first_rule_nth m o category_rules i ks r Hi Hm Hbefore).
  - intros m o H. unfold classify.
    replace (mentions m o ["restaurant"; "cafe"; "food"]) with true; [reflexivity |].
    symmetry. unfold mentions. simpl.
    destruct (includes m "cafe"), (includes o "cafe"); try discriminate H;
      rewrite ?orb_true_r; reflexivity.
  - intros m o H. rewrite classify_table, (first_rule_none m o category_rules H).
    split; reflexivity.
Qed.

Lemma C8_witness :
  classify "" "cafe central office" = ("Meals & Entertainment", "Restaurant/Food expense")
  /\ classify "" "paper and office" = ("Office Supplies", "Office supplies")
  /\ classify "" "bookshop" = default_category.
Proof.
  split; [| split].
  - apply (proj1 (proj2 C8_first_matching_rule_wins)). vm_compute. reflexivity.
  - apply (proj1 C8_first_matching_rule_wins "" "paper and office" 2%nat
             ["office"; "supplies"; "stationery"]).
    + reflexivity.
    + vm_compute. reflexivity.
    + intros j ks' r' Hj Hn.
      destruct j as [| [| j]]; [| | lia]; simpl in Hn; injection Hn as <- <-;
        vm_compute; reflexivity.
  - apply (proj2 (proj2 C8_first_matching_rule_wins)). vm_compute. reflexivity.
Defined.

(** ** The three parse stages *)

Lemma from_first_open_skip :
  forall p t, has_char is_open p = false -> from_first_open (p ++ t) = from_first_open t.
Proof.
  induction p as [| c p IH]; intros t H; [reflexivity |].
  simpl in H. apply orb_false_elim in H. destruct H as [H1 H2].
  simpl. unfold is_open in H1. rewrite H1. exact (IH t H2).
Qed.

Lemma last_close_app :
  forall a b i best,
    last_close (a ++ b) i best = last_close b (i + String.length a) (last_close a i best).
Proof.
  induction a as [| c a IH]; intros b i best.
  - simpl. rewrite Nat.add_0_r. reflexivity.
  - simpl. rewrite IH. f_equal. lia.
Qed.

Lemma last_close_none :
  forall q i best, has_char is_close q = false -> last_close q i best = best.
Proof.
  induction q as [| c q IH]; intros i best H; [reflexivity |].
  simpl in H. apply orb_false_elim in H. destruct H as [H1 H2].
  simpl. unfold is_close in H1. rewrite H1. exact (IH (S i) best H2).
Qed.

Lemma str_app_assoc : forall a b c : string, (a ++ b) ++ c = a ++ b ++ c.
Proof. induction a as [| x a IH]; intros b c; [reflexivity |]. simpl. rewrite IH. reflexivity. Qed.

Lemma str_length_app :
  forall a b : string, String.length (a ++ b) = (String.length a + String.length b)%nat.
Proof. induction a as [| x a IH]; intro b; [reflexivity |]. simpl. rewrite IH. reflexivity. Qed.

Lemma substring_prefix :
  forall a b, substring 0 (String.length a) (a ++ b) = a.
Proof.
  induction a as [| c a IH]; intro b; [destruct b; reflexivity |].
  simpl. rewrite IH. reflexivity.
Qed.

(** The span from the first opening to the last closing brace of a text
    [p ++ s ++ q] is [s] when [s] opens and closes with a brace, [p] has
    no opening brace and [q] no closing brace. *)
Lemma brace_span_isolated :
  forall p mid q,
    has_char is_open p = false ->
    has_char is_close q = false ->
    brace_span (p ++ ("{" ++ mid ++ "}") ++ q) = Some ("{" ++ mid ++ "}").
Proof.
  intros p mid q Hp Hq. unfold brace_span.
  rewrite from_first_open_skip by exact Hp. simpl from_first_open. cbv iota.
  change (String "{" ((mid ++ "}") ++ q)) with (("{" ++ mid ++ "}") ++ q).
  rewrite last_close_app, last_close_none by exact Hq.
  replace ("{" ++ mid ++ "}") with (("{" ++ mid) ++ "}") by (rewrite str_app_assoc; reflexivity).
  rewrite last_close_app. simpl.
  rewrite !str_app_assoc.
  replace (S (String.length mid)) with (String.length (mid ++ "}")).
  - rewrite <- (str_app_assoc mid "}" q), substring_prefix. reflexivity.
  - rewrite str_length_app. simpl. lia.
Qed.

(** C6 (amended): the reply is parsed raw, then with the [```json] and
    [```] fences (and the white space after them) removed, then as the span
    from the first opening to the last closing brace of the fence-stripped
    text; it raises only when all three fail and otherwise returns the
    value of the first stage that parses.  JSON wrapped in prose is
    recovered when the prose before it has no opening brace and the prose
    after it no closing brace; other prose can make stage three fail. *)
Theorem C6_three_stage_parsing :
  forall response,
    (forall err,
       parse_response response = Throw err ->
       JSON_parse response = None
       /\ JSON_parse (strip_fences response) = None
       /\ (brace_span (strip_fences response) = None
           \/ exists m, brace_span (strip_fences response) = Some m /\ JSON_parse m = None))
    /\ (forall j,
          parse_response response = Ret j ->
          JSON_parse response = Some j
          \/ (JSON_parse response = None /\ JSON_parse (strip_fences response) = Some j)
          \/ (JSON_parse response = None /\ JSON_parse (strip_fences response) = None
              /\ exists m, brace_span (strip_fences response) = Some m /\ JSON_parse m = Some j))
    /\ (forall p mid q j,
          strip_fences response = p ++ ("{" ++ mid ++ "}") ++ q ->
          has_char is_open p = false ->
          has_char is_close q = false ->
          JSON_parse ("{" ++ mid ++ "}") = Some j ->
          exists j', parse_response response = Ret j'
                     /\ (JSON_parse response = None ->
                         JSON_parse (strip_fences response) = None -> j' = j)).
Proof.
  intro response. unfold parse_response.
  destruct (JSON_parse response) as [j1 |] eqn:E1.
  - split; [intros err H; discriminate H |].
    split; [intros j H; injection H as <-; left; reflexivity |].
    intros p mid q j _ _ _ _. exists j1. split; [reflexivity | intro C; discriminate C].
  - destruct (JSON_parse (strip_fences response)) as [j2 |] eqn:E2.
    + split; [intros err H; discriminate H |].
      split; [intros j H; injection H as <-; right; left; split; reflexivity |].
      intros p mid q j _ _ _ _. exists j2. split; [reflexivity | intros _ C; discriminate C].
    + split; [| split].
      * intros err H. split; [reflexivity | split; [reflexivity |]].
        destruct (brace_span (strip_fences response)) as [m |]; [| left; reflexivity].
        right. exists m. split; [reflexivity |].
        destruct (JSON_parse m); [discriminate H | reflexivity].
      * intros j H. right. right. split; [reflexivity | split; [reflexivity |]].
        destruct (brace_span (strip_fences response)) as [m |]; [| discriminate H].
        exists m. split; [reflexivity |].
        destruct (JSON_parse m); [injection H as <-; reflexivity | discriminate H].
      * intros p mid q j Hs Hp Hq Hj.
        rewrite Hs, (brace_span_isolated p mid q Hp Hq), Hj.
        exists j. split; reflexivity.
Qed.

Lemma C6_witness :
  strip_fences fenced_reply
    = ("Here you go:" ++ newline) ++ ("{" ++ quote "totalDebit" ++ ": 25.5" ++ "}")
      ++ (newline ++ "Thanks")
  /\ exists j', parse_response fenced_reply = Ret j'
                /\ (JSON_parse fenced_reply = None ->
                    JSON_parse (strip_fences fenced_reply) = None ->
                    j' = JObj [("totalDebit", JNum 255 (-1))]).
Proof.
  split; [vm_compute; reflexivity |].
  apply (proj2 (proj2 (C6_three_stage_parsing fenced_reply))
           ("Here you go:" ++ newline) (quote "totalDebit" ++ ": 25.5") (newline ++ "Thanks")).
  - vm_compute. reflexivity.
  - vm_compute. reflexivity.
  - vm_compute. reflexivity.
  - vm_compute. reflexivity.
Defined.

(** ** The upload filter *)



(** ** The OCR service *)

(** Extra: whatever goes wrong in [processOCR] (the upload request, or all
    six result requests), the error it raises has the message [OCR
    processing failed]. *)
Theorem processOCR_error_message :
  forall upload call m, processOCR upload call = Throw m -> m = "OCR processing failed".
Proof.
  intros upload call m H. unfold processOCR in H.
  destruct upload as [data |]; [| injection H as <-; reflexivity].
  destruct (_ && _); [| discriminate H].
  destruct (first_result _ _ _); [discriminate H | injection H as <-; reflexivity].
Qed.

Lemma processOCR_error_message_witness :
  processOCR None (fun _ _ => None) = Throw "OCR processing failed"
  /\ "OCR processing failed" = "OCR processing failed".
Proof.
  split; [reflexivity |].
  apply (processOCR_error_message None (fun _ _ => None)). reflexivity.
Defined.

Lemma first_result_nth :
  forall call token eps i ep d,
    nth_error eps i = Some ep ->
    call ep token = Some d ->
    (forall j ep', (j < i)%nat -> nth_error eps j = Some ep' -> call ep' token = None) ->
    first_result call token eps = Some d.
Proof.
  intros call token eps. induction eps as [| ep0 rest IH]; intros i ep d Hi Hd Hb.
  - destruct i; discriminate Hi.
  - destruct i as [| i].
    + simpl in Hi. injection Hi as <-. simpl. rewrite Hd. reflexivity.
    + simpl. rewrite (Hb 0%nat ep0 ltac:(lia) eq_refl).
      apply (IH i ep d Hi Hd). intros j ep' Hj Hn. apply (Hb (S j) ep'); [lia | exact Hn].
Qed.

Lemma first_result_none :
  forall call token eps, (forall ep, In ep eps -> call ep token = None) ->
    first_result call token eps = None.
Proof.
  intros call token eps. induction eps as [| ep rest IH]; intro H; [reflexivity |].
  simpl. rewrite (H ep (or_introl eq_refl)). apply IH. intros ep' Hin. apply H. right. exact Hin.
Qed.

(** Extra: when the upload answers with a [token] (or [duplicateToken]),
    the six result endpoints are tried in order and the first that
    answers decides: its [result] field when truthy, else its [data] field
    when truthy, else its whole data; when all six fail the call raises. *)
Theorem processOCR_first_endpoint :
  forall data call,
    truthy (Some data) = true ->
    (truthy (field data "token") || truthy (field data "duplicateToken")) = true ->
    let token := match (if truthy (field data "token") then field data "token"
                        else field data "duplicateToken") with Some t => t | None => JNull end in
    (forall i ep d,
       nth_error endpointConfigs i = Some ep ->
       call ep token = Some d ->
       (forall j ep', (j < i)%nat -> nth_error endpointConfigs j = Some ep' -> call ep' token = None) ->
       processOCR (Some data) call = Ret (select_result d))
    /\ ((forall ep, In ep endpointConfigs -> call ep token = None) ->
        processOCR (Some data) call = Throw "OCR processing failed").
Proof.
  intros data call Hd Ht token. unfold processOCR. rewrite Hd, Ht. simpl andb. cbv iota.
  fold token. split.
  - intros i ep d Hi Hc Hb. rewrite (first_result_nth call token endpointConfigs i ep d Hi Hc Hb).
    reflexivity.
  - intro H. rewrite (first_result_none call token endpointConfigs H). reflexivity.
Qed.

Lemma processOCR_first_endpoint_witness :
  processOCR (Some token_reply) path_only_call = Ret (JObj [("total", JNum 42 0)]).
Proof.
  rewrite (proj1 (processOCR_first_endpoint token_reply path_only_call eq_refl eq_refl)
             2%nat (mkEndpoint GET "https://api.tabscanner.com/api/result/" InPath)
             (JObj [("result", JObj [("total", JNum 42 0)])])).
  - reflexivity.
  - reflexivity.
  - reflexivity.
  - intros j ep' Hj Hn. destruct j as [| [| j]]; [| | lia]; injection Hn as <-; reflexivity.
Defined.

(** ** The upload route *)

Lemma processOCR_throw_message :
  forall upload call m, processOCR upload call = Throw m -> m = "OCR processing failed".
Proof.
  intros upload call m H. unfold processOCR in H.
  destruct upload as [data |]; [| injection H as <-; reflexivity].
  destruct (_ && _); [| discriminate H].
  destruct (first_result _ _ _); [discriminate H | injection H as <-; reflexivity].
Qed.

Lemma fileFilter_size_none :
  forall f, size f = None -> exists m, fileFilter f = Throw m.
Proof.
  intros f Hs. unfold fileFilter. rewrite Hs.
  destruct (includes (originalname f) ".." || includes (originalname f) "/"); [eexists; reflexivity |].
  rewrite !andb_false_r. eexists. reflexivity.
Qed.

(** Extra: the route never leaves the uploaded file on disk: on success
    it is removed after the entry is derived, and on every error path the
    catch block removes it (a refused or missing upload stores none). *)
Theorem upload_route_removes_file :
  forall dateOf env header query upload stored ocr_upload call llm today,
    snd (upload_route dateOf env header query upload stored ocr_upload call llm today) = false.
Proof.
  intros. unfold upload_route.
  destruct (checkAccess env header query); [| reflexivity].
  assert (Hh : forall file present ocr derive,
             file <> None \/ present = false -> snd (upload_handler file present ocr derive) = false).
  { intros [p |] present ocr derive H; simpl.
    - destruct ocr as [o | m]; [| reflexivity].
      destruct (derive o); [destruct present |]; reflexivity.
    - destruct H as [H | H]; [contradiction H; reflexivity | exact H]. }
  destruct upload as [f |].
  - destruct (fileFilter f); [apply Hh; left; discriminate | reflexivity].
  - apply Hh. right. reflexivity.
Qed.

(** Extra: an upload whose file object has an [undefined] size never gets
    a 200 response. *)
Theorem upload_route_undefined_size_fails :
  forall dateOf env header query f stored ocr_upload call llm today,
    size f = None ->
    status (fst (upload_route dateOf env header query (Some f) stored ocr_upload call llm today))
    <> 200%nat.
Proof.
  intros dateOf env header query f stored ocr_upload call llm today Hs.
  unfold upload_route.
  destruct (checkAccess env header query) as [| st msg] eqn:Ha.
  - destruct (fileFilter_size_none f Hs) as [m Hm]. rewrite Hm. simpl. discriminate.
  - unfold checkAccess in Ha.
    destruct (ACCESS_CODE env); [| discriminate Ha].
    destruct (qval_eqb _ _); [discriminate Ha |].
    injection Ha as <- <-. simpl. discriminate.
Qed.

Lemma upload_route_undefined_size_fails_witness :
  status (fst (upload_route (fun _ => None) None None None
                 (Some (mkFile "receipt.jpg" "image/jpeg" None)) "uploads/receipt-1.jpg"
                 (Some token_reply) path_only_call LlmFailure "19/10/2026")) <> 200%nat.
Proof. apply upload_route_undefined_size_fails. reflexivity. Defined.

(** Extra: a 200 response is given only for an accepted file whose OCR
    succeeded, and its body holds exactly the OCR data and the value
    [generateJournalEntry] resolved to: the route adds no check of its
    own. *)
Theorem upload_route_success :
  forall dateOf env header query upload stored ocr_upload call llm today b present,
    upload_route dateOf env header query upload stored ocr_upload call llm today
      = (mkResponse 200 b, present) ->
    exists f o j,
      checkAccess env header query = Next
      /\ upload = Some f /\ fileFilter f = Ret true
      /\ processOCR ocr_upload call = Ret o
      /\ generateJournalEntry dateOf o llm today = Ret j
      /\ b = OkBody o j.
Proof.
  intros dateOf env header query upload stored ocr_upload call llm today b present H.
  unfold upload_route in H.
  destruct (checkAccess env header query) as [| st msg] eqn:Ha.
  2:{ unfold checkAccess in Ha. destruct (ACCESS_CODE env); [| discriminate Ha].
      destruct (qval_eqb _ _); [discriminate Ha |]. injection Ha as <- <-. discriminate H. }
  destruct upload as [f |].
  2:{ discriminate H. }
  destruct (fileFilter f) as [acc | m] eqn:Hf.
  2:{ discriminate H. }
  assert (acc = true) as ->.
  { unfold fileFilter in Hf.
    destruct (_ || _); [discriminate Hf |]. destruct (_ && _ && _); [| discriminate Hf].
    injection Hf as <-. reflexivity. }
  unfold upload_handler in H.
  destruct (processOCR ocr_upload call) as [o | m] eqn:Ho; [| discriminate H].
  destruct (generateJournalEntry dateOf o llm today) as [j | m] eqn:Hg; [| discriminate H].
  injection H as <- _.
  exists f, o, j. repeat split; first [reflexivity | assumption].
Qed.

Lemma upload_route_success_witness :
  exists f o j,
    checkAccess None None None = Next
    /\ Some (mkFile "r.png" "image/png" (Some 10%Z)) = Some f /\ fileFilter f = Ret true
    /\ processOCR (Some token_reply) path_only_call = Ret o
    /\ generateJournalEntry (fun _ => None) o (LlmContent unbalanced_reply) "19/10/2026" = Ret j
    /\ OkBody (JObj [("total", JNum 42 0)])
         (FromModel (JObj [("totalDebit", JNum 100 0); ("totalCredit", JNum 50 0)])) = OkBody o j.
Proof.
  apply (upload_route_success (fun _ => None) None None None
           (Some (mkFile "r.png" "image/png" (Some 10%Z))) "uploads/receipt-1.png"
           (Some token_reply) path_only_call (LlmContent unbalanced_reply) "19/10/2026" _ false).
  vm_compute. reflexivity.
Defined.

(** ** Sign of the extracted amount *)

Lemma num_value_nonneg : forall m e, (0 <= m)%Z -> 0 <= num_value m e.
Proof.
  intros m e Hm. unfold num_value. destruct (0 <=? e)%Z.
  - change 0 with (inject_Z 0). rewrite <- Zle_Qle. apply Z.mul_nonneg_nonneg; [exact Hm |].
    apply Z.pow_nonneg. lia.
  - unfold Qle. simpl. lia.
Qed.

Lemma digits_value_nonneg : forall s acc, (0 <= acc)%Z -> (0 <= digits_value s acc)%Z.
Proof.
  induction s as [| c s IH]; intros acc H; simpl; [exact H |]. apply IH. lia.
Qed.

Lemma parseFloat_dec_nonneg : forall s q, parseFloat_dec s = Num q -> 0 <= q.
Proof.
  intros s q H. unfold parseFloat_dec in H.
  destruct (span is_digit s) as [ip rest].
  destruct (_ && _); [discriminate H |].
  injection H as <-. apply num_value_nonneg. apply digits_value_nonneg. lia.
Qed.

Lemma Math_max_member :
  forall xs x q, Math_max x xs = Num q -> In (Num q) (x :: xs).
Proof.
  unfold Math_max. induction xs as [| y xs IH]; intros x q H; simpl in H.
  - left. exact H.
  - apply IH in H. destruct H as [H | H].
    + unfold js_max2 in H. destruct x as [| a], y as [| b]; try discriminate H.
      destruct (Qle_bool a b); injection H as <-; [right; left | left]; reflexivity.
    + right. right. exact H.
Qed.

Lemma text_search_nonneg : forall o q, text_search o = Some (Num q) -> 0 <= q.
Proof.
  intros o q H. unfold text_search in H.
  destruct (amount_matches _) as [| a more]; [discriminate H |].
  injection H as H. apply Math_max_member in H.
  destruct H as [H | H].
  - exact (parseFloat_dec_nonneg _ _ H).
  - apply in_map_iff in H. destruct H as [x [Hx _]]. exact (parseFloat_dec_nonneg _ _ Hx).
Qed.

Lemma string_field_nonneg : forall v q, string_field v = Some (Num q) -> 0 <= q.
Proof.
  intros v q H. unfold string_field in H.
  destruct (truthy v); [| discriminate H].
  destruct v as [[| | | s | |] |]; try discriminate H.
  destruct (parseFloat_dec _) as [| q'] eqn:E; simpl in H; [discriminate H |].
  injection H as ->. exact (parseFloat_dec_nonneg _ _ E).
Qed.

Lemma number_field_some :
  forall v x, number_field v = Some x -> exists m e, v = Some (JNum m e) /\ x = Num (num_value m e).
Proof.
  intros v x H. unfold number_field in H.
  destruct (truthy v); [| discriminate H].
  destruct v as [[| | m e | | |] |]; try discriminate H.
  injection H as <-. exists m, e. split; reflexivity.
Qed.

Lemma num_value_neg : forall m e, num_value m e < 0 -> (m < 0)%Z.
Proof.
  intros m e H.
  destruct (Z_lt_le_dec m 0) as [Hm' | Hm']; [exact Hm' |].
  pose proof (num_value_nonneg m e Hm'). lra.
Qed.

(** Extra: [extractAmountFromOCR] returns a negative number only when
    [total] or [totalAmount] is a negative JSON number: a string [total]
    loses its minus sign ([replace(/[^\d.]/g, '')]) and the text search
    reads no sign either, so they give a non-negative number or NaN. *)
Theorem extractAmount_negative_only_from_number_field :
  forall o q,
    extractAmountFromOCR o = Num q -> q < 0 ->
    exists m e, (get o "total" = Some (Some (JNum m e)) \/ get o "totalAmount" = Some (Some (JNum m e)))
                /\ (m < 0)%Z.
Proof.
  intros o q H Hq. unfold extractAmountFromOCR in H.
  destruct (get o "total") as [total |] eqn:Et.
  2:{ injection H as <-. unfold Qlt in Hq. simpl in Hq. lia. }
  destruct (number_field total) as [x |] eqn:E1.
  { destruct (number_field_some _ _ E1) as [m [e [-> ->]]]. injection H as <-.
    exists m, e. split; [left; reflexivity | exact (num_value_neg m e Hq)]. }
  destruct (number_field (match get o "totalAmount" with Some v => v | None => None end))
    as [x |] eqn:E2.
  { destruct (number_field_some _ _ E2) as [m [e [Hv ->]]]. injection H as <-.
    exists m, e. split; [right | exact (num_value_neg m e Hq)].
    destruct (get o "totalAmount"); [rewrite Hv; reflexivity | discriminate Hv]. }
  destruct (string_field total) as [x |] eqn:E3.
  { subst x. pose proof (string_field_nonneg _ _ E3). lra. }
  destruct (text_search o) as [x |] eqn:E4.
  { subst x. pose proof (text_search_nonneg _ _ E4). lra. }
  injection H as <-. unfold Qlt in Hq. simpl in Hq. lia.
Qed.

Lemma extractAmount_negative_only_from_number_field_witness :
  extractAmountFromOCR (JObj [("total", JNum (-1250) (-2))]) = Num (num_value (-1250) (-2))
  /\ exists m e, (get (JObj [("total", JNum (-1250) (-2))]) "total" = Some (Some (JNum m e))
                  \/ get (JObj [("total", JNum (-1250) (-2))]) "totalAmount" = Some (Some (JNum m e)))
                 /\ (m < 0)%Z.
Proof.
  split; [reflexivity |].
  apply (extractAmount_negative_only_from_number_field _ (num_value (-1250) (-2))).
  - reflexivity.
  - reflexivity.
Defined.

(** ** The merchant found by the text patterns *)

Lemma append_nil_r : forall a : string, a ++ EmptyString = a.
Proof. induction a as [| x a IH]; [reflexivity |]. simpl. rewrite IH. reflexivity. Qed.

Lemma quote_char_plain : forall c, key_special c = false -> quote_char c = String c EmptyString.
Proof. intros [[] [] [] [] [] [] [] []] H; try reflexivity; discriminate H. Qed.

Lemma quote_body_plain : forall k, has_char key_special k = false -> quote_body k = k.
Proof.
  induction k as [| c k IH]; intro H; [reflexivity |].
  simpl in H. apply orb_false_elim in H. destruct H as [H1 H2].
  simpl. rewrite (quote_char_plain c H1), (IH H2). reflexivity.
Qed.

Lemma first_match_no_upper :
  forall s, has_char is_upper s = false -> first_match upper_run_at s = None.
Proof.
  induction s as [| c s IH]; intro H; [reflexivity |].
  simpl in H. apply orb_false_elim in H. destruct H as [H1 H2].
  simpl. rewrite H1. exact (IH H2).
Qed.

Lemma key_special_dq : forall c, key_special c = false -> Ascii.eqb c dq = false.
Proof. intros [[] [] [] [] [] [] [] []] H; try reflexivity; discriminate H. Qed.

Lemma key_special_quote : forall c, key_special c = false -> Ascii.eqb c "'" = false.
Proof. intros [[] [] [] [] [] [] [] []] H; try reflexivity; discriminate H. Qed.

Lemma span_to_dq :
  forall k t, has_char key_special k = false ->
    span (fun x => negb (Ascii.eqb x dq)) (k ++ String dq t) = (k, String dq t).
Proof.
  induction k as [| c k IH]; intros t H; [reflexivity |].
  simpl in H. apply orb_false_elim in H. destruct H as [H1 H2].
  simpl. rewrite (key_special_dq c H1). simpl. rewrite (IH t H2). reflexivity.
Qed.

Lemma filter_chars_app :
  forall p a b, filter_chars p (a ++ b) = filter_chars p a ++ filter_chars p b.
Proof.
  intros p a b. induction a as [| c a IH]; [reflexivity |].
  simpl. destruct (p c); rewrite IH; reflexivity.
Qed.

Lemma filter_quotes_plain :
  forall k, has_char key_special k = false ->
    filter_chars (fun c => negb (Ascii.eqb c dq || Ascii.eqb c "'")) k = k.
Proof.
  induction k as [| c k IH]; intro H; [reflexivity |].
  simpl in H. apply orb_false_elim in H. destruct H as [H1 H2].
  simpl. rewrite (key_special_dq c H1), (key_special_quote c H1). simpl. rewrite (IH H2).
  reflexivity.
Qed.

Lemma index_keys_none :
  forall (A : Type) (l : list (string * A)),
    forallb (fun x => negb (is_index_key (fst x))) l = true -> index_keys l = [].
Proof.
  intros A l. induction l as [| x l IH]; intro H; [reflexivity |].
  simpl in H. apply andb_true_iff in H. destruct H as [Hx Hl].
  simpl. unfold is_index_key in Hx. destruct (array_index (fst x)); [discriminate Hx |].
  exact (IH Hl).
Qed.

Lemma own_keys_plain :
  forall (A : Type) (l : list (string * A)),
    forallb (fun x => negb (is_index_key (fst x))) l = true -> own_keys_order l = l.
Proof.
  intros A l H. unfold own_keys_order. rewrite (index_keys_none A l H). simpl.
  induction l as [| x l IH]; [reflexivity |].
  simpl in H. apply andb_true_iff in H. destruct H as [Hx Hl].
  simpl. rewrite Hx, (IH Hl). reflexivity.
Qed.

Lemma forallb_keys_map :
  forall (A B : Type) (f : string * A -> B) (l : list (string * A)),
    forallb (fun kv => negb (is_index_key (fst kv))) l = true ->
    forallb (fun x => negb (is_index_key (fst x))) (map (fun kv => (fst kv, f kv)) l) = true.
Proof.
  intros A B f l. induction l as [| x l IH]; intro H; [reflexivity |].
  simpl in *. apply andb_true_iff in H. destruct H as [Hx Hl]. rewrite Hx. exact (IH Hl).
Qed.

Lemma stringify_first_key :
  forall k v rest,
    forallb (fun kv => negb (is_index_key (fst kv))) ((k, v) :: rest) = true ->
    exists t,
      stringify (JObj ((k, v) :: rest)) = String "{" (String dq (quote_body k ++ String dq t)).
Proof.
  intros k v rest H.
  change (stringify (JObj ((k, v) :: rest)))
    with ("{" ++ join "," (map snd (own_keys_order
            (map (fun kv => (fst kv, quote (fst kv) ++ ":" ++ stringify (snd kv)))
                 ((k, v) :: rest)))) ++ "}").
  rewrite own_keys_plain by (apply (forallb_keys_map json string _ _ H)).
  destruct rest as [| kv rest]; simpl; unfold quote; eexists;
    rewrite ?str_app_assoc; reflexivity.
Qed.

Lemma get_obj_field : forall kvs key, get (JObj kvs) key = Some (field (JObj kvs) key).
Proof. reflexivity. Qed.

Lemma fallback_merchant :
  forall o amt d e, createFallbackJournalEntry o amt d = Ret e -> find_merchant o = Ret (merchant e).
Proof.
  intros o amt d e H. unfold createFallbackJournalEntry in H.
  destruct (find_merchant o) as [m | err]; [| discriminate H].
  destruct (classify _ _). injection H as <-. reflexivity.
Qed.

(** Extra: for an OCR object without upper-case letters and without a
    truthy [establishment], [merchantName] or [vendor], whose first key
    has 2 to 47 code units and no control character, double quote,
    backslash or apostrophe, and none of whose keys is an array index (so
    that [JSON.stringify] writes the keys in the order they were created),
    the fallback entry's merchant is that first key (trimmed): the
    quoted-text pattern meets the quotes of the first key before anything
    else. *)
Theorem fallback_merchant_is_first_key :
  forall k v rest amt d e,
    let o := JObj ((k, v) :: rest) in
    forallb (fun kv => negb (is_index_key (fst kv))) ((k, v) :: rest) = true ->
    has_char is_upper (stringify o) = false ->
    has_char key_special k = false ->
    (2 <= String.length k <= 47)%nat ->
    truthy (field o "establishment") = false ->
    truthy (field o "merchantName") = false ->
    truthy (field o "vendor") = false ->
    createFallbackJournalEntry o amt d = Ret e ->
    merchant e = trim k.
Proof.
  intros k v rest amt d e o Hkeys Hup Hk Hlen H1 H2 H3 H.
  apply fallback_merchant in H. unfold find_merchant in H.
  subst o. rewrite !get_obj_field, H1, H2, H3 in H. cbn [orb] in H.
  assert (Hm : pattern_merchant (stringify (JObj ((k, v) :: rest))) = merchant e) by congruence.
  destruct (stringify_first_key k v rest Hkeys) as [t Ht].
  rewrite <- Hm, Ht. rewrite Ht in Hup. unfold pattern_merchant.
  rewrite (first_match_no_upper _ Hup).
  simpl first_match at 1.
  destruct k as [| c0 k0]; [simpl in Hlen; lia |].
  rewrite (quote_body_plain _ Hk).
  simpl quoted_at. rewrite (span_to_dq _ t Hk). cbn iota.
  assert (Hok : ((3 <? String.length (String dq (String c0 k0 ++ String dq EmptyString)))
                 && (String.length (String dq (String c0 k0 ++ String dq EmptyString)) <? 50))%nat
                = true).
  { simpl String.length. rewrite str_length_app. simpl String.length.
    apply andb_true_intro. split; apply Nat.ltb_lt; simpl in Hlen; lia. }
  cbn beta iota. rewrite Hok.
  unfold clean_merchant. f_equal.
  change (String dq (String c0 k0 ++ String dq EmptyString))
    with (String dq EmptyString ++ (String c0 k0 ++ String dq EmptyString)).
  rewrite !filter_chars_app, (filter_quotes_plain _ Hk).
  exact (append_nil_r _).
Qed.

Lemma fallback_merchant_is_first_key_witness :
  exists e,
    createFallbackJournalEntry (JObj [("total", JNum 125 (-1)); ("paid", JBool true)]) (Num 12)
      "19/10/2026" = Ret e
    /\ merchant e = trim "total".
Proof.
  eexists. split; [vm_compute; reflexivity |].
  apply (fallback_merchant_is_first_key "total" (JNum 125 (-1)) [("paid", JBool true)] (Num 12)
           "19/10/2026");
    try reflexivity; try (vm_compute; reflexivity).
  simpl. lia.
Defined.
